(** * TurkServer: instance lifecycle and connection handling

    A shallow embedding of [lib/instance.jsx] (the [Instance] class) and of
    the connection handlers ([TurkServer.handleConnection],
    [TurkServer.assignUserSequential], [TurkServer.assignUserRoundRobin]).

    The Mongo collections are components of one explicit server state; a
    method that throws keeps the writes it made before the throw, so an
    outcome carries the state in both cases. *)

From stdpp Require Import gmap strings list fin_maps.
From Stdlib Require Import ZArith.

Local Open Scope string_scope.
Local Open Scope Z_scope.
Local Open Scope list_scope.

(** ** Data model *)

(** What the code throws.  The source throws plain [Error]s told apart by
    their message, one [Meteor.Error] with code 403, and the engine's
    [TypeError] when a property of [undefined] is read. *)
Inductive error : Type :=
| InstanceDoesNotExist (groupId : string)  (* "Instance does not exist: ..." *)
| InstanceAlreadyExists                    (* "Instance already exists; use getInstance" *)
| CannotAddToEnded                         (* "Cannot add a user to an instance that has ended." *)
| NoActiveBatch                            (* Meteor.Error(403, "No active batch configured on server") *)
| TypeError.

Inductive ErrorClass : Type :=
| NotFound | StateError | AuthorizationError | ExternalServiceError | Unclassified.

(** Modelled from the spec: the error taxonomy of its section 7 (the source
    has no error classes).  NotFound is an unknown [groupId]; StateError is
    mutating an ended Instance or constructing an Instance for a [groupId]
    that already has one; a 403 is the authorization class. *)
Definition taxonomy (e : error) : ErrorClass :=
  match e with
  | InstanceDoesNotExist _ => NotFound
  | InstanceAlreadyExists => StateError
  | CannotAddToEnded => StateError
  | NoActiveBatch => AuthorizationError
  | TypeError => Unclassified
  end.

(** An [Instance] object: the constructor stores [groupId] and nothing
    else.  Its identity is its address in [heap]. *)
Record Instance : Type := { groupId : string }.

(** A record of the [Experiments] collection.  [users] is absent until the
    first [$addToSet]; [startTime] and [endTime] are [null] until set. *)
Record ExperimentDoc : Type := {
  exp_id : string;
  batchId : option string;
  treatments : list string;
  users : option (list string);
  startTime : option Z;
  endTime : option Z;
  assignable : bool
}.

Record TreatmentDoc : Type := {
  treatment_id : string;
  name : string;
  params : gmap string string
}.

Inductive Status : Type := ASSIGNED | RETURNED.

#[global] Instance Status_eq_dec : EqDecision Status.
Proof. solve_decision. Defined.

Record JoinRecord : Type := {
  join_id : string;
  joinTime : option Z;
  leaveTime : option Z
}.

Record AssignmentDoc : Type := {
  asst_id : string;
  hitId : string;
  assignmentId : string;
  workerId : string;
  status : option Status;
  instances : list JoinRecord
}.

(** A [TurkServer.Assignment] object as [addAssignment] uses it. *)
Record Assignment : Type := { asstId : string; userId : string }.

Record UserDoc : Type := {
  user_workerId : string;
  turkserver_state : option string
}.

Record BatchDoc : Type := {
  batch_id : string;
  active : bool;
  grouping : string;
  lobby : bool;
  groupVal : option Z;
  experimentIds : list string
}.

Record LogEntry : Type := {
  _groupId : option string;
  _meta : string;
  _timestamp : Z
}.

(** The server state: the module-level [_instances] map with the heap its
    values live in, the collections, and the two sources of fresh values
    ([new Date], [Random.id()]) as a sequence of readings with a cursor. *)
Record State : Type := {
  _instances : gmap string nat;
  heap : list Instance;
  Experiments : list ExperimentDoc;
  Treatments : list TreatmentDoc;
  Assignments : list AssignmentDoc;
  Meteor_users : gmap string UserDoc;
  Grouping : gmap string string;
  Batches : list BatchDoc;
  LobbyStatus : gmap string string;
  Logs : list LogEntry;
  Date_now : nat → Z;
  Date_reads : nat;
  Random_id : nat → string;
  Random_draws : nat
}.

Definition set_instances (f : gmap string nat → gmap string nat) (s : State) : State :=
  {| _instances := f (_instances s); heap := heap s; Experiments := Experiments s;
     Treatments := Treatments s; Assignments := Assignments s;
     Meteor_users := Meteor_users s; Grouping := Grouping s; Batches := Batches s;
     LobbyStatus := LobbyStatus s; Logs := Logs s; Date_now := Date_now s;
     Date_reads := Date_reads s; Random_id := Random_id s;
     Random_draws := Random_draws s |}.

Definition set_heap (f : list Instance → list Instance) (s : State) : State :=
  {| _instances := _instances s; heap := f (heap s); Experiments := Experiments s;
     Treatments := Treatments s; Assignments := Assignments s;
     Meteor_users := Meteor_users s; Grouping := Grouping s; Batches := Batches s;
     LobbyStatus := LobbyStatus s; Logs := Logs s; Date_now := Date_now s;
     Date_reads := Date_reads s; Random_id := Random_id s;
     Random_draws := Random_draws s |}.

Definition set_Experiments (f : list ExperimentDoc → list ExperimentDoc) (s : State) : State :=
  {| _instances := _instances s; heap := heap s; Experiments := f (Experiments s);
     Treatments := Treatments s; Assignments := Assignments s;
     Meteor_users := Meteor_users s; Grouping := Grouping s; Batches := Batches s;
     LobbyStatus := LobbyStatus s; Logs := Logs s; Date_now := Date_now s;
     Date_reads := Date_reads s; Random_id := Random_id s;
     Random_draws := Random_draws s |}.

Definition set_Treatments (f : list TreatmentDoc → list TreatmentDoc) (s : State) : State :=
  {| _instances := _instances s; heap := heap s; Experiments := Experiments s;
     Treatments := f (Treatments s); Assignments := Assignments s;
     Meteor_users := Meteor_users s; Grouping := Grouping s; Batches := Batches s;
     LobbyStatus := LobbyStatus s; Logs := Logs s; Date_now := Date_now s;
     Date_reads := Date_reads s; Random_id := Random_id s;
     Random_draws := Random_draws s |}.

Definition set_Batches (f : list BatchDoc → list BatchDoc) (s : State) : State :=
  {| _instances := _instances s; heap := heap s; Experiments := Experiments s;
     Treatments := Treatments s; Assignments := Assignments s;
     Meteor_users := Meteor_users s; Grouping := Grouping s; Batches := f (Batches s);
     LobbyStatus := LobbyStatus s; Logs := Logs s; Date_now := Date_now s;
     Date_reads := Date_reads s; Random_id := Random_id s;
     Random_draws := Random_draws s |}.

Definition set_Assignments (f : list AssignmentDoc → list AssignmentDoc) (s : State) : State :=
  {| _instances := _instances s; heap := heap s; Experiments := Experiments s;
     Treatments := Treatments s; Assignments := f (Assignments s);
     Meteor_users := Meteor_users s; Grouping := Grouping s; Batches := Batches s;
     LobbyStatus := LobbyStatus s; Logs := Logs s; Date_now := Date_now s;
     Date_reads := Date_reads s; Random_id := Random_id s;
     Random_draws := Random_draws s |}.

Definition set_Meteor_users (f : gmap string UserDoc → gmap string UserDoc) (s : State) : State :=
  {| _instances := _instances s; heap := heap s; Experiments := Experiments s;
     Treatments := Treatments s; Assignments := Assignments s;
     Meteor_users := f (Meteor_users s); Grouping := Grouping s; Batches := Batches s;
     LobbyStatus := LobbyStatus s; Logs := Logs s; Date_now := Date_now s;
     Date_reads := Date_reads s; Random_id := Random_id s;
     Random_draws := Random_draws s |}.

Definition set_Grouping (f : gmap string string → gmap string string) (s : State) : State :=
  {| _instances := _instances s; heap := heap s; Experiments := Experiments s;
     Treatments := Treatments s; Assignments := Assignments s;
     Meteor_users := Meteor_users s; Grouping := f (Grouping s); Batches := Batches s;
     LobbyStatus := LobbyStatus s; Logs := Logs s; Date_now := Date_now s;
     Date_reads := Date_reads s; Random_id := Random_id s;
     Random_draws := Random_draws s |}.

Definition set_LobbyStatus (f : gmap string string → gmap string string) (s : State) : State :=
  {| _instances := _instances s; heap := heap s; Experiments := Experiments s;
     Treatments := Treatments s; Assignments := Assignments s;
     Meteor_users := Meteor_users s; Grouping := Grouping s; Batches := Batches s;
     LobbyStatus := f (LobbyStatus s); Logs := Logs s; Date_now := Date_now s;
     Date_reads := Date_reads s; Random_id := Random_id s;
     Random_draws := Random_draws s |}.

Definition set_Logs (f : list LogEntry → list LogEntry) (s : State) : State :=
  {| _instances := _instances s; heap := heap s; Experiments := Experiments s;
     Treatments := Treatments s; Assignments := Assignments s;
     Meteor_users := Meteor_users s; Grouping := Grouping s; Batches := Batches s;
     LobbyStatus := LobbyStatus s; Logs := f (Logs s); Date_now := Date_now s;
     Date_reads := Date_reads s; Random_id := Random_id s;
     Random_draws := Random_draws s |}.

Definition set_Date_reads (f : nat → nat) (s : State) : State :=
  {| _instances := _instances s; heap := heap s; Experiments := Experiments s;
     Treatments := Treatments s; Assignments := Assignments s;
     Meteor_users := Meteor_users s; Grouping := Grouping s; Batches := Batches s;
     LobbyStatus := LobbyStatus s; Logs := Logs s; Date_now := Date_now s;
     Date_reads := f (Date_reads s); Random_id := Random_id s;
     Random_draws := Random_draws s |}.

Definition set_Random_draws (f : nat → nat) (s : State) : State :=
  {| _instances := _instances s; heap := heap s; Experiments := Experiments s;
     Treatments := Treatments s; Assignments := Assignments s;
     Meteor_users := Meteor_users s; Grouping := Grouping s; Batches := Batches s;
     LobbyStatus := LobbyStatus s; Logs := Logs s; Date_now := Date_now s;
     Date_reads := Date_reads s; Random_id := Random_id s;
     Random_draws := f (Random_draws s) |}.

(** ** The effect monad: state, and exceptions that keep the state *)

Inductive outcome (A : Type) : Type :=
| Ok (a : A) (s : State)
| Throw (e : error) (s : State).
Arguments Ok {A} a s.
Arguments Throw {A} e s.

Definition M (A : Type) : Type := State → outcome A.

Definition final {A} (o : outcome A) : State :=
  match o with Ok _ s => s | Throw _ s => s end.

Definition succeeded {A} (o : outcome A) : bool :=
  match o with Ok _ _ => true | Throw _ _ => false end.

#[global] Instance M_ret : MRet M := λ A a s, Ok a s.
#[global] Instance M_bind : MBind M := λ A B k c s,
  match c s with
  | Ok a s' => k a s'
  | Throw e s' => Throw e s'
  end.

Definition throw {A} (e : error) : M A := λ s, Throw e s.
Definition gets {A} (f : State → A) : M A := λ s, Ok (f s) s.
Definition modify (f : State → State) : M unit := λ s, Ok tt (f s).

(** [new Date]: the next reading of the wall clock. *)
Definition new_Date : M Z :=
  λ s, Ok (Date_now s (Date_reads s)) (set_Date_reads S s).

(** [Random.id()], used by the store for the [_id] of an inserted record. *)
Definition Random_id_next : M string :=
  λ s, Ok (Random_id s (Random_draws s)) (set_Random_draws S s).

(** ** JavaScript values of the registry code *)

Inductive jsval : Type :=
| JUndefined
| JBool (b : bool)
| JObj (l : nat).

Definition truthy (v : jsval) : bool :=
  match v with JUndefined => false | JBool b => b | JObj _ => true end.

(** [v != null] *)
Definition not_null (v : jsval) : bool :=
  match v with JUndefined => false | _ => true end.

(** [a && b] with [b] already evaluated (it has no effects here). *)
Definition js_and (a b : jsval) : jsval := if truthy a then b else a.

(** A string in a condition: the empty string is falsy. *)
Definition truthy_string (v : option string) : bool :=
  match v with Some x => negb (String.eqb x "") | None => false end.

(** ** Store primitives *)

Definition Experiments_findOne (id : string) (s : State) : option ExperimentDoc :=
  List.find (λ d, String.eqb (exp_id d) id) (Experiments s).

(** [Experiments.update(id, modifier)]: the modifier on the first record
    with this [_id], nothing when there is none. *)
Fixpoint update_first {A} (p : A → bool) (f : A → A) (l : list A) : list A :=
  match l with
  | [] => []
  | d :: l' => if p d then f d :: l' else d :: update_first p f l'
  end.

Definition Experiments_update (id : string) (f : ExperimentDoc → ExperimentDoc) : M unit :=
  modify (set_Experiments (update_first (λ d, String.eqb (exp_id d) id) f)).

(** [Experiments.remove {batchId: b}], as the test suite's cleanup does. *)
Definition Experiments_remove_batch (b : string) : M unit :=
  modify (set_Experiments
            (List.filter (λ d, negb (bool_decide (batchId d = Some b))))).

(** ** The instance registry *)

(** [_instances.get(groupId)] *)
Definition Map_get (g : string) (s : State) : jsval :=
  match _instances s !! g with Some l => JObj l | None => JUndefined end.

(** [new TurkServer.Instance(groupId)] *)
Definition Instance_new (g : string) : M nat :=
  λ s, if truthy (Map_get g s) then Throw InstanceAlreadyExists s
       else Ok (length (heap s)) (set_heap (λ h, h ++ [ {| groupId := g |} ]) s).

(** [Instance.getInstance] is cut at its one suspension point, the store
    read [Experiments.findOne(groupId)]: a fiber that misses the registry
    waits there with its local [inst], and other fibers run meanwhile. *)
Record Suspended : Type := { sus_groupId : string; sus_inst : jsval }.

(** Lines 37-41: registry hit returns at once, a miss suspends. *)
Definition getInstance_begin (g : string) (s : State) : jsval + Suspended :=
  let inst := Map_get g s in
  if not_null inst then inl inst
  else inr {| sus_groupId := g; sus_inst := inst |}.

(** Lines 42-51, run when the store has answered.  The re-check on line 47
    is [inst = (_instances.get(groupId) && inst != null)]: [&&] and [!=]
    bind tighter than [=], and the [inst] on the right is still the value
    read on line 39. *)
Definition getInstance_resume (k : Suspended) : M jsval :=
  let g := sus_groupId k in
  rec ← gets (Experiments_findOne g);
  match rec with
  | None => throw (InstanceDoesNotExist g)
  | Some _ =>
      cached ← gets (Map_get g);
      let inst := js_and cached (JBool (not_null (sus_inst k))) in
      if truthy inst then mret inst
      else
        l ← Instance_new g;
        modify (set_instances (<[g := l]>));;
        mret (JObj l)
  end.

(** A call that nothing interleaves with. *)
Definition getInstance (g : string) : M jsval :=
  λ s, match getInstance_begin g s with
       | inl inst => Ok inst s
       | inr k => getInstance_resume k s
       end.

(** ** Collaborators of the Instance class that live outside these files *)

(** Modelled from the spec: [Partitioner.setUserGroup] (the partitioner is
    not in these files); the spec's section 4.1 has [setUserGroup],
    [clearUserGroup] and [getUserGroup] maintain an explicit
    userId -> groupId mapping. *)
Definition Partitioner_setUserGroup (u g : string) : M unit :=
  modify (set_Grouping (<[u := g]>)).

(** Modelled from the spec: [Partitioner.clearUserGroup], which removes the
    user's entry from that mapping. *)
Definition Partitioner_clearUserGroup (u : string) : M unit :=
  modify (set_Grouping (delete u)).

(** Modelled from the spec: [TurkServer.Groups.getUserGroup], which reads
    the user's entry of that mapping, [undefined] when there is none. *)
Definition Groups_getUserGroup (u : string) (s : State) : option string :=
  Grouping s !! u.

(** Modelled from the spec: [Partitioner.bindGroup] runs its body with the
    current group bound to [g]; the binding is passed to the body. *)
Definition Partitioner_bindGroup {A} (g : string) (body : option string → M A) : M A :=
  body (Some g).

(** Modelled from the spec: [TurkServer.log], the log sink of the spec's
    section 6, which accepts an event with its kind and timestamp; the
    event is filed under the group bound by the caller. *)
Definition TurkServer_log (meta : string) (ts : Z) (current : option string) : M unit :=
  modify (set_Logs (λ l, l ++ [ {| _groupId := current; _meta := meta; _timestamp := ts |} ])).

(** [Assignments.update(id, modifier)] *)
Definition Assignments_update (id : string) (f : AssignmentDoc → AssignmentDoc) : M unit :=
  modify (set_Assignments (update_first (λ d, String.eqb (asst_id d) id) f)).

(** [$push: {instances: j}] *)
Definition push_instance (j : JoinRecord) (d : AssignmentDoc) : AssignmentDoc :=
  {| asst_id := asst_id d; hitId := hitId d; assignmentId := assignmentId d;
     workerId := workerId d; status := status d; instances := instances d ++ [j] |}.

(** The join records of Instance [g] get the leave time [t]. *)
Definition close_instance (g : string) (t : Z) (d : AssignmentDoc) : AssignmentDoc :=
  {| asst_id := asst_id d; hitId := hitId d; assignmentId := assignmentId d;
     workerId := workerId d; status := status d;
     instances :=
       List.map (λ j, if String.eqb (join_id j) g
                      then {| join_id := join_id j; joinTime := joinTime j; leaveTime := Some t |}
                      else j) (instances d) |}.

(** Modelled from the spec: [Assignment._joinInstance] (the Assignment
    class is not in these files) appends the Instance to the Assignment's
    ordered history of [{id, joinTime, leaveTime?}] records. *)
Definition Assignment_joinInstance (asst : Assignment) (g : string) : M unit :=
  now ← new_Date;
  Assignments_update (asstId asst)
    (push_instance {| join_id := g; joinTime := Some now; leaveTime := None |}).

(** Modelled from the spec: [Assignment._leaveInstance] records the
    departure from the Instance on the Assignment. *)
Definition Assignment_leaveInstance (asst : Assignment) (g : string) : M unit :=
  now ← new_Date;
  Assignments_update (asstId asst) (close_instance g now).

(** Modelled from the spec: [Assignment.getCurrentUserAssignment] locates
    the user's current Assignment, the one of the user's worker with status
    ASSIGNED, or nothing. *)
Definition Assignment_getCurrentUserAssignment (u : string) (s : State) : option Assignment :=
  w ← user_workerId <$> (Meteor_users s !! u);
  d ← List.find (λ d, String.eqb (workerId d) w && bool_decide (status d = Some ASSIGNED))
        (Assignments s);
  Some {| asstId := asst_id d; userId := u |}.

(** Modelled from the spec: [TurkServer.Batch.getBatch] resolves the owning
    Batch, or nothing when it cannot be resolved. *)
Definition Batch_getBatch (b : option string) (s : State) : option BatchDoc :=
  id ← b; List.find (λ d, String.eqb (batch_id d) id) (Batches s).

(** Modelled from the spec: [batch.lobby.addAssignment] adds the Assignment
    to the Lobby of the Batch, the pool of participants awaiting
    assignment. *)
Definition lobby_addAssignment (b : BatchDoc) (asst : Assignment) : M unit :=
  modify (set_LobbyStatus (<[userId asst := batch_id b]>)).

(** One step of the merge: the keys of [t] override those merged so far. *)
Definition merge_step (acc : gmap string string) (t : TreatmentDoc) : gmap string string :=
  params t ∪ acc.

(** Modelled from the spec: [TurkServer._mergeTreatments] (not in these
    files) merges the Treatments it is handed, in the order it is handed
    them, a later entry overriding an earlier one on a key conflict. *)
Definition _mergeTreatments (ts : list TreatmentDoc) : gmap string string :=
  foldl merge_step ∅ ts.

(** [Treatments.find({name: {$in: names}})]: the stored Treatments whose
    name is one of [names], in the order of the collection. *)
Definition Treatments_find_name_in (names : list string) (s : State) : list TreatmentDoc :=
  List.filter (λ t, bool_decide (name t ∈ names)) (Treatments s).

(** [Treatments.findOne(id)]; a selector that is [undefined] matches no
    record. *)
Definition Treatments_findOne (sel : option string) (s : State) : option TreatmentDoc :=
  id ← sel; List.find (λ t, String.eqb (treatment_id t) id) (Treatments s).

(** ** The Instance methods *)

Definition set_users (f : option (list string) → option (list string)) (d : ExperimentDoc)
  : ExperimentDoc :=
  {| exp_id := exp_id d; batchId := batchId d; treatments := treatments d;
     users := f (users d); startTime := startTime d; endTime := endTime d;
     assignable := assignable d |}.

Definition set_startTime (t : option Z) (d : ExperimentDoc) : ExperimentDoc :=
  {| exp_id := exp_id d; batchId := batchId d; treatments := treatments d;
     users := users d; startTime := t; endTime := endTime d;
     assignable := assignable d |}.

Definition set_endTime (t : option Z) (d : ExperimentDoc) : ExperimentDoc :=
  {| exp_id := exp_id d; batchId := batchId d; treatments := treatments d;
     users := users d; startTime := startTime d; endTime := t;
     assignable := assignable d |}.

(** [$addToSet: {users: u}] *)
Definition addToSet (u : string) (us : option (list string)) : option (list string) :=
  match us with
  | None => Some [u]
  | Some l => if bool_decide (u ∈ l) then Some l else Some (l ++ [u])
  end.

Definition set_turkserver_state (v : string) (d : UserDoc) : UserDoc :=
  {| user_workerId := user_workerId d; turkserver_state := Some v |}.

(** [instance && instance.endTime != null]: [None] is the [undefined] of a
    missing record. *)
Definition isEnded (this : Instance) (s : State) : option bool :=
  d ← Experiments_findOne (groupId this) s;
  Some (bool_decide (endTime d ≠ None)).

Definition addAssignment (this : Instance) (asst : Assignment) : M unit :=
  ended ← gets (isEnded this);
  if default false ended then throw CannotAddToEnded
  else
    Partitioner_setUserGroup (userId asst) (groupId this);;
    Experiments_update (groupId this) (set_users (addToSet (userId asst)));;
    modify (set_Meteor_users (alter (set_turkserver_state "experiment") (userId asst)));;
    now ← new_Date;
    modify (set_Experiments
              (update_first
                 (λ d, String.eqb (exp_id d) (groupId this) && bool_decide (startTime d = None))
                 (set_startTime (Some now))));;
    Assignment_joinInstance asst (groupId this).

(** [Experiments.findOne(this.groupId).users || []] *)
Definition Instance_users (this : Instance) : M (list string) :=
  rec ← gets (Experiments_findOne (groupId this));
  match rec with
  | None => throw TypeError
  | Some d => mret (default [] (users d))
  end.

Definition batch (this : Instance) (s : State) : option BatchDoc :=
  d ← Experiments_findOne (groupId this) s; Batch_getBatch (batchId d) s.

Definition treatment (this : Instance) (s : State) : option (gmap string string) :=
  d ← Experiments_findOne (groupId this) s;
  Some (_mergeTreatments (Treatments_find_name_in (treatments d) s)).

(** [(instance.endTime || new Date) - instance.startTime]; the clock is
    read only when [endTime] is not set.  Without a [startTime] the
    subtraction is not a duration ([None]). *)
Definition getDuration (this : Instance) : M (option Z) :=
  rec ← gets (Experiments_findOne (groupId this));
  match rec with
  | None => throw TypeError
  | Some d =>
      e ← match endTime d with Some e => mret e | None => new_Date end;
      mret ((λ st, e - st) <$> startTime d)
  end.

Definition sendUserToLobby (this : Instance) (u : string) : M unit :=
  Partitioner_clearUserGroup u;;
  asst ← gets (Assignment_getCurrentUserAssignment u);
  match asst with
  | None => mret tt
  | Some a =>
      Assignment_leaveInstance a (groupId this);;
      b ← gets (batch this);
      match b with
      | None => throw TypeError
      | Some b => lobby_addAssignment b a
      end
  end.

(** [for (userId of users) this.sendUserToLobby(userId)] *)
Fixpoint for_of {A} (l : list A) (body : A → M unit) : M unit :=
  match l with
  | [] => mret tt
  | x :: l' => body x;; for_of l' body
  end.

Definition teardown (this : Instance) (returnToLobby : bool) : M unit :=
  now ← new_Date;
  Partitioner_bindGroup (groupId this) (TurkServer_log "teardown" now);;
  Experiments_update (groupId this) (set_endTime (Some now));;
  if negb returnToLobby then mret tt
  else
    rec ← gets (Experiments_findOne (groupId this));
    match rec with
    | None => throw TypeError
    | Some d =>
        match users d with
        | None => mret tt
        | Some us => for_of us (sendUserToLobby this)
        end
    end.

(** ** Connection handling and the assignment policies *)

(** The [doc] that [handleConnection] receives. *)
Record Connection : Type := {
  conn_userId : string;
  conn_workerId : string;
  conn_hitId : string;
  conn_assignmentId : string
}.

Definition set_status (v : Status) (d : AssignmentDoc) : AssignmentDoc :=
  {| asst_id := asst_id d; hitId := hitId d; assignmentId := assignmentId d;
     workerId := workerId d; status := Some v; instances := instances d |}.

(** The selector [{hitId: doc.hitId, assignmentId: doc.assignmentId}]. *)
Definition same_assignment (doc : Connection) (d : AssignmentDoc) : bool :=
  String.eqb (hitId d) (conn_hitId doc) && String.eqb (assignmentId d) (conn_assignmentId doc).

(** ... with [workerId: {$ne: doc.workerId}]. *)
Definition other_worker (doc : Connection) (d : AssignmentDoc) : bool :=
  same_assignment doc d && negb (String.eqb (workerId d) (conn_workerId doc)).

(** ... with [workerId: doc.workerId]. *)
Definition this_worker (doc : Connection) (d : AssignmentDoc) : bool :=
  same_assignment doc d && String.eqb (workerId d) (conn_workerId doc).

(** [Assignments.update(selector, modifier, {multi: true})] *)
Definition Assignments_update_multi (p : AssignmentDoc → bool) (f : AssignmentDoc → AssignmentDoc)
  : M unit :=
  modify (set_Assignments (List.map (λ d, if p d then f d else d))).

(** [Assignments.upsert(selector, {$set: {status: "ASSIGNED"}})]: the first
    matching record is updated; without one, a record made of the
    selector's fields and the modifier is inserted under a fresh [_id]. *)
Definition Assignments_upsert_assigned (doc : Connection) : M unit :=
  found ← gets (λ s, existsb (this_worker doc) (Assignments s));
  if (found : bool) then
    modify (set_Assignments (update_first (this_worker doc) (set_status ASSIGNED)))
  else
    id ← Random_id_next;
    modify (set_Assignments
              (λ l, l ++ [ {| asst_id := id; hitId := conn_hitId doc;
                              assignmentId := conn_assignmentId doc;
                              workerId := conn_workerId doc;
                              status := Some ASSIGNED; instances := [] |} ])).

(** [Batches.findOne(active: true)] *)
Definition Batches_findOne_active (s : State) : option BatchDoc :=
  List.find active (Batches s).

(** [Grouping.find(groupId: g).count()] *)
Definition Grouping_count (g : string) (s : State) : Z :=
  Z.of_nat (size (filter (λ kv : string * string, kv.2 = g) (Grouping s))).

(** [Experiments.find(_id: $in: ids).fetch()] *)
Definition Experiments_find_id_in (ids : list string) (s : State) : list ExperimentDoc :=
  List.filter (λ d, bool_decide (exp_id d ∈ ids)) (Experiments s).

(** [Experiments.find(assignable: true)], in stored order. *)
Definition Experiments_find_assignable (s : State) : list ExperimentDoc :=
  List.filter assignable (Experiments s).

(** Underscore's [_.min(list, iterator)]: the first element whose computed
    value is strictly below every earlier one; [None] is the [Infinity] it
    returns for an empty list. *)
Fixpoint _min_from {A} (f : A → Z) (best : A) (l : list A) : A :=
  match l with
  | [] => best
  | x :: l' => _min_from f (if f x <? f best then x else best) l'
  end.

Definition _min {A} (f : A → Z) (l : list A) : option A :=
  match l with
  | [] => None
  | x :: l' => Some (_min_from f x l')
  end.

(** [count < activeBatch.groupVal]; a comparison with [undefined] is
    false. *)
Definition below_groupVal (count : Z) (b : BatchDoc) : bool :=
  match groupVal b with Some v => count <? v | None => false end.

Section Policies.

(** The lobby and experiment API the handlers call is not in these
    files: it is taken as given.  [TurkServer.Experiment.addUser] gets
    [undefined] for its first argument when round-robin finds no
    experiment; the sequential scan calls [TurkServer.experiment.addUser],
    spelled in lower case. *)
Variable Lobby_addUser : string → M unit.
Variable Experiment_addUser : option string → string → M unit.
Variable experiment_addUser : string → string → M unit.
Variable Experiment_create : option string → bool → M string.
Variable Experiment_setup : string → string → M unit.

Definition assignUserRoundRobin (u : string) : M unit :=
  activeBatch ← gets Batches_findOne_active;
  match activeBatch with
  | None => throw TypeError
  | Some b =>
      exps ← gets (Experiments_find_id_in (experimentIds b));
      exp ← gets (λ s, _min (λ ex, Grouping_count (exp_id ex) s) exps);
      Experiment_addUser (exp_id <$> exp) u
  end.

(** The callback of [forEach] on line 107, with the flag it closes over. *)
Definition scan_step (activeBatch : option BatchDoc) (u : string)
    (assignedToExisting : bool) (exp : ExperimentDoc) : M bool :=
  if assignedToExisting then mret true
  else
    count ← gets (Grouping_count (exp_id exp));
    match activeBatch with
    | None => throw TypeError
    | Some b =>
        if below_groupVal count b
        then experiment_addUser (exp_id exp) u;; mret true
        else mret false
    end.

Fixpoint forEach_scan (activeBatch : option BatchDoc) (u : string)
    (cursor : list ExperimentDoc) (assignedToExisting : bool) : M bool :=
  match cursor with
  | [] => mret assignedToExisting
  | exp :: rest =>
      flag ← scan_step activeBatch u assignedToExisting exp;
      forEach_scan activeBatch u rest flag
  end.

Definition assignUserSequential (u : string) : M unit :=
  activeBatch ← gets Batches_findOne_active;
  cursor ← gets Experiments_find_assignable;
  assignedToExisting ← forEach_scan activeBatch u cursor false;
  if (assignedToExisting : bool) then mret tt
  else
    let treatmentId : option string := None in
    newId ← Experiment_create treatmentId true;
    t ← gets (Treatments_findOne treatmentId);
    match t with
    | None => throw TypeError
    | Some t =>
        Experiment_setup newId (name t);;
        Experiment_addUser (Some newId) u
    end.

Definition handleConnection (doc : Connection) : M unit :=
  Assignments_update_multi (other_worker doc) (set_status RETURNED);;
  Assignments_upsert_assigned doc;;
  g ← gets (Groups_getUserGroup (conn_userId doc));
  if truthy_string g then mret tt
  else
    activeBatch ← gets Batches_findOne_active;
    match activeBatch with
    | None => throw NoActiveBatch
    | Some b =>
        if String.eqb (grouping b) "groupSize" && lobby b
        then Lobby_addUser (conn_userId doc)
        else if String.eqb (grouping b) "groupCount"
        then assignUserRoundRobin (conn_userId doc)
        else assignUserSequential (conn_userId doc)
    end.

End Policies.

(** ** The spec's reading of treatment resolution *)

(** The merge as the spec words it: the Treatments named by the Instance's
    list, taken in the order of that list. *)
Definition treatments_in_list_order (names : list string) (s : State) : list TreatmentDoc :=
  omap (λ n, List.find (λ t, String.eqb (name t) n) (Treatments s)) names.

Definition treatment_in_list_order (this : Instance) (s : State) : option (gmap string string) :=
  d ← Experiments_findOne (groupId this) s;
  Some (_mergeTreatments (treatments_in_list_order (treatments d) s)).

(** ** Two fibers on one unseen groupId *)

(** Both fibers miss the registry and suspend in the store read before
    either resumes; then the first resumes, then the second.  A fiber that
    hits the registry never suspends and simply returns. *)
Definition getInstance_race (g : string) (s : State) : outcome jsval * outcome jsval :=
  match getInstance_begin g s, getInstance_begin g s with
  | inr kA, inr kB =>
      let oA := getInstance_resume kA s in
      (oA, getInstance_resume kB (final oA))
  | a, b =>
      (match a with inl v => Ok v s | inr k => getInstance_resume k s end,
       match b with inl v => Ok v s | inr k => getInstance_resume k s end)
  end.

(** ** Runs of [addAssignment] *)


(** The calls are made one after the other on the same Instance; a call
    that throws leaves the run going. *)
Fixpoint addAssignments (this : Instance) (assts : list Assignment) (s : State) : State :=
  match assts with
  | [] => s
  | a :: rest => addAssignments this rest (final (addAssignment this a s))
  end.

Definition startTime_of (g : string) (s : State) : option Z :=
  d ← Experiments_findOne g s; startTime d.

(** ** What the statements about the handlers speak of *)

(** The state once [handleConnection] has made its two writes to
    [Assignments] (lines 47-62). *)
Definition assignment_recorded (doc : Connection) (s : State) : State :=
  final ((Assignments_update_multi (other_worker doc) (set_status RETURNED);;
          Assignments_upsert_assigned doc) s).

(** A record of [doc]'s hitId and assignmentId whose status is ASSIGNED. *)
Definition assigned_for (doc : Connection) (d : AssignmentDoc) : bool :=
  same_assignment doc d && bool_decide (status d = Some ASSIGNED).

(** The sequential scan finds room in [exp]. *)
Definition has_room (b : BatchDoc) (s : State) (exp : ExperimentDoc) : bool :=
  below_groupVal (Grouping_count (exp_id exp) s) b.

(** The two writes as functions of the stored list. *)
Definition returned_others (doc : Connection) (l : list AssignmentDoc) : list AssignmentDoc :=
  List.map (λ d, if other_worker doc d then set_status RETURNED d else d) l.

Definition upserted (doc : Connection) (id : string) (l : list AssignmentDoc)
  : list AssignmentDoc :=
  if existsb (this_worker doc) l
  then update_first (this_worker doc) (set_status ASSIGNED) l
  else l ++ [ {| asst_id := id; hitId := conn_hitId doc;
                 assignmentId := conn_assignmentId doc; workerId := conn_workerId doc;
                 status := Some ASSIGNED; instances := [] |} ].

(** Every record of another worker on [doc]'s assignment is RETURNED. *)
Definition others_returned (doc : Connection) (l : list AssignmentDoc) : Prop :=
  Forall (λ d, other_worker doc d = true → status d = Some RETURNED) l.

(** A computation that leaves the [Assignments] collection as it found
    it, however it ends. *)
Definition keeps_Assignments {A} (c : M A) : Prop :=
  ∀ s, Assignments (final (c s)) = Assignments s.

(** ** The rest of the Instance class and of the connection handlers *)

(** [Instance.initialize(handler)]: [init_queue.push(handler)].  A handler
    is called with [this] set to the context, whose one field is the
    Instance, inside the group the caller bound. *)
Definition initialize (handler : Instance → option string → M unit)
    (init_queue : list (Instance → option string → M unit))
  : list (Instance → option string → M unit) :=
  init_queue ++ [handler].

(** [bindOperation(func, context = {})]: [context.instance = this], then
    [func] bound to the context runs in the group of this Instance; the
    value of the call is dropped. *)
Definition bindOperation (this : Instance) (func : Instance → option string → M unit) : M unit :=
  Partitioner_bindGroup (groupId this) (func this).

Section Setup.

(** [TurkServer.log] applied to an ["initialized"] event that carries the
    treatment data; the sink is outside these files and is taken as
    given. *)
Variable log_initialized : option (gmap string string) → option string → M unit.

(** [setup()]: the treatment is resolved, the event logged, then every
    handler of the queue is called in turn. *)
Definition setup (init_queue : list (Instance → option string → M unit)) (this : Instance)
  : M unit :=
  bindOperation this (λ instance current,
    treatmentData ← gets (treatment instance);
    log_initialized treatmentData current;;
    for_of init_queue (λ handler, handler instance current)).

End Setup.

(** [TurkServer.onDisconnect(func)]: [disconnectCallbacks.push func].  A
    callback is called with [this.userId] set, inside the user's group. *)
Definition onDisconnect (func : string → option string → M unit)
    (disconnectCallbacks : list (string → option string → M unit))
  : list (string → option string → M unit) :=
  disconnectCallbacks ++ [func].

(** The ["sessionLogout"] handler of lines 21-27: nothing without a
    [doc.userId] or without a [groupId] for it in [Grouping]; otherwise the
    callbacks run in the user's group. *)
Definition sessionLogout_callbacks
    (disconnectCallbacks : list (string → option string → M unit))
    (doc_userId : option string) : M unit :=
  match doc_userId with
  | None => mret tt
  | Some u =>
      if negb (truthy_string (Some u)) then mret tt
      else
        groupId ← gets (λ s, Grouping s !! u);
        if negb (truthy_string groupId) then mret tt
        else
          Partitioner_bindGroup (default "" groupId)
            (λ current, for_of disconnectCallbacks (λ cb, cb u current))
  end.

Section SessionLogout.

(** [TurkServer.Lobby.removeUser] is not in these files: it is taken as
    given.  It is handed [doc.userId], which may be [undefined]. *)
Variable Lobby_removeUser : option string → M unit.

(** The ["sessionLogout"] event: the handler of lines 13-15, which removes
    the user from the lobby, then the handler of lines 21-27, in the order
    they were registered; a handler that throws keeps the next from
    running. *)
Definition sessionLogout
    (disconnectCallbacks : list (string → option string → M unit))
    (doc_userId : option string) : M unit :=
  Lobby_removeUser doc_userId;;
  sessionLogout_callbacks disconnectCallbacks doc_userId.

End SessionLogout.

(** ** What the further statements speak of *)

(** The registry is sound: the object registered under a groupId is on
    the heap and carries that groupId. *)
Definition registry_wf (s : State) : Prop :=
  ∀ g l, _instances s !! g = Some l → heap s !! l = Some {| groupId := g |}.

(** The members of Instance [g] as stored, none when the record or its
    [users] field is missing. *)
Definition users_of (g : string) (s : State) : list string :=
  default [] (Experiments_findOne g s ≫= users).

(** ** Scenarios *)

(** A server that has just started: empty registry, empty collections. *)
Definition fresh_server : State :=
  {| _instances := ∅; heap := []; Experiments := []; Treatments := [];
     Assignments := []; Meteor_users := ∅; Grouping := ∅; Batches := [];
     LobbyStatus := ∅; Logs := []; Date_now := λ n, 1000 + 7 * Z.of_nat n;
     Date_reads := 0; Random_id := λ n, String.concat "" (repeat "x" (S n));
     Random_draws := 0 |}.

Definition experiment_g1 : ExperimentDoc :=
  {| exp_id := "g1"; batchId := Some "b1"; treatments := ["B"; "A"]; users := None;
     startTime := None; endTime := None; assignable := false |}.

Definition server_with_g1 : State :=
  set_Experiments (λ _, [experiment_g1]) fresh_server.

(** What a call that passes the guard leaves in the store. *)
Definition joined (this : Instance) (asst : Assignment) (s : State) : State :=
  let now := Date_now s (Date_reads s) in
  final (Assignment_joinInstance asst (groupId this)
    (set_Experiments
       (update_first
          (λ d, String.eqb (exp_id d) (groupId this) && bool_decide (startTime d = None))
          (set_startTime (Some now)))
       (set_Date_reads S
          (set_Meteor_users (alter (set_turkserver_state "experiment") (userId asst))
             (set_Experiments
                (update_first (λ d, String.eqb (exp_id d) (groupId this))
                   (set_users (addToSet (userId asst))))
                (set_Grouping (<[userId asst := groupId this]>) s)))))).

Definition experiment_g1_ended : ExperimentDoc :=
  {| exp_id := "g1"; batchId := Some "b1"; treatments := ["B"; "A"]; users := Some ["u0"];
     startTime := Some 1500; endTime := Some 2000; assignable := false |}.

Definition server_with_ended_g1 : State :=
  set_Experiments (λ _, [experiment_g1_ended]) fresh_server.

Definition instance_g1 : Instance := {| groupId := "g1" |}.
Definition asst_a1 : Assignment := {| asstId := "a1"; userId := "u1" |}.
Definition asst_a2 : Assignment := {| asstId := "a2"; userId := "u2" |}.

(** The log event of a teardown that read the time [now]. *)
Definition teardown_event (this : Instance) (now : Z) : LogEntry :=
  {| _groupId := Some (groupId this); _meta := "teardown"; _timestamp := now |}.

(** Two stored Treatments that both set ["k"]; the Instance [g1] names
    them in the order B, A. *)
Definition treatment_A : TreatmentDoc :=
  {| treatment_id := "tA"; name := "A"; params := {[ "k" := "1" ]} |}.
Definition treatment_B : TreatmentDoc :=
  {| treatment_id := "tB"; name := "B"; params := {[ "k" := "2" ]} |}.

Definition server_with_treatments : State :=
  set_Treatments (λ _, [treatment_A; treatment_B]) server_with_g1.

(** One way the lobby and experiment API can behave, for the examples. *)
Definition ex_Lobby_addUser (u : string) : M unit :=
  modify (set_LobbyStatus (<[u := "lobby"]>)).

Definition ex_Experiment_addUser (g : option string) (u : string) : M unit :=
  match g with
  | Some g => Partitioner_setUserGroup u g
  | None => throw TypeError
  end.

Definition ex_experiment_addUser (g u : string) : M unit :=
  Partitioner_setUserGroup u g.

Definition ex_Experiment_create (t : option string) (a : bool) : M string :=
  id ← Random_id_next;
  modify (set_Experiments
            (λ l, l ++ [ {| exp_id := id; batchId := None; treatments := [];
                            users := None; startTime := None; endTime := None;
                            assignable := a |} ]));;
  mret id.

Definition ex_Experiment_setup (g t : string) : M unit := mret tt.

Definition batch_b1 : BatchDoc :=
  {| batch_id := "b1"; active := true; grouping := "none"; lobby := false;
     groupVal := Some 2; experimentIds := [] |}.

Definition connection_w2 : Connection :=
  {| conn_userId := "u2"; conn_workerId := "w2"; conn_hitId := "h1";
     conn_assignmentId := "x1" |}.

Definition assignment_w1 : AssignmentDoc :=
  {| asst_id := "a1"; hitId := "h1"; assignmentId := "x1"; workerId := "w1";
     status := Some ASSIGNED; instances := [] |}.

(** An active sequential batch with no experiment yet; worker w1 holds
    the assignment that w2 now connects with. *)
Definition server_sequential : State :=
  set_Batches (λ _, [batch_b1])
    (set_Assignments (λ _, [assignment_w1]) fresh_server).

(** No active batch; the connecting user u2 is already in group g1. *)
Definition server_u2_in_group : State :=
  set_Grouping (<["u2" := "g1"]>)
    (set_Assignments (λ _, [assignment_w1]) server_with_g1).

Definition experiment_g2 : ExperimentDoc :=
  {| exp_id := "g2"; batchId := Some "b1"; treatments := ["A"]; users := Some ["u7"; "u8"];
     startTime := Some 1200; endTime := None; assignable := true |}.

Definition server_with_g1_g2 : State :=
  set_Experiments (λ _, [experiment_g1; experiment_g2]) fresh_server.

(** Instance g1 running in batch b1 with one member, u1, whose worker w1
    holds an assigned Assignment. *)
Definition experiment_g1_running : ExperimentDoc :=
  {| exp_id := "g1"; batchId := Some "b1"; treatments := ["A"]; users := Some ["u1"];
     startTime := Some 1500; endTime := None; assignable := false |}.

Definition server_running_g1 : State :=
  set_Grouping (λ _, {[ "u1" := "g1" ]})
    (set_Meteor_users (λ _, {[ "u1" := {| user_workerId := "w1";
                                          turkserver_state := Some "experiment" |} ]})
       (set_Batches (λ _, [batch_b1])
          (set_Assignments (λ _, [assignment_w1])
             (set_Experiments (λ _, [experiment_g1_running]) fresh_server)))).

(** A second Instance that names the stored Treatments of [g1] in
    another order, one of them twice, and a Treatment that is not stored. *)
Definition experiment_g3 : ExperimentDoc :=
  {| exp_id := "g3"; batchId := Some "b1"; treatments := ["A"; "B"; "A"; "Z"]; users := None;
     startTime := None; endTime := None; assignable := false |}.

Definition server_two_lists : State :=
  set_Experiments (λ _, [experiment_g1; experiment_g3]) server_with_treatments.

(** Batch b1 active over the Instances g1 and g2, with u1 in g1. *)
Definition batch_b1_roundrobin : BatchDoc :=
  {| batch_id := "b1"; active := true; grouping := "groupCount"; lobby := false;
     groupVal := None; experimentIds := ["g1"; "g2"] |}.

Definition server_roundrobin : State :=
  set_Grouping (λ _, {[ "u1" := "g1" ]})
    (set_Batches (λ _, [batch_b1_roundrobin]) server_with_g1_g2).

Definition server_sequential_g2 : State :=
  set_Batches (λ _, [batch_b1]) server_with_g1_g2.

(** Two disconnect callbacks, for the examples: each leaves a mark in the
    lobby collection under its own key. *)
Definition ex_callback_1 (u : string) (current : option string) : M unit :=
  modify (set_LobbyStatus (<["cb1" := default "" current]>)).

Definition ex_callback_2 (u : string) (current : option string) : M unit :=
  modify (set_LobbyStatus (<["cb2" := u]>)).

(** No batch at all; worker w1 holds the assignment w2 connects with. *)
Definition server_no_batch : State :=
  set_Assignments (λ _, [assignment_w1]) fresh_server.

(** One way [TurkServer.Lobby.removeUser] can behave, for the examples. *)
Definition ex_Lobby_removeUser (u : option string) : M unit :=
  match u with
  | Some u => modify (set_LobbyStatus (delete u))
  | None => mret tt
  end.

(** ** Stepping lemmas *)

Ltac unfold_M :=
  unfold mbind, M_bind, mret, M_ret, gets, modify, throw, new_Date, Random_id_next in *.

Lemma bind_Ok {A B} (c : M A) (k : A → M B) s a s' :
  c s = Ok a s' → (c ≫= k) s = k a s'.
Proof. intros H. unfold mbind, M_bind. by rewrite H. Qed.

Lemma bind_Throw {A B} (c : M A) (k : A → M B) s e s' :
  c s = Throw e s' → (c ≫= k) s = Throw e s'.
Proof. intros H. unfold mbind, M_bind. by rewrite H. Qed.

Lemma Map_get_hit g s l : _instances s !! g = Some l → Map_get g s = JObj l.
Proof. intros H. unfold Map_get. by rewrite H. Qed.

Lemma Map_get_miss g s : _instances s !! g = None → Map_get g s = JUndefined.
Proof. intros H. unfold Map_get. by rewrite H. Qed.

(** ** The registry *)

(** A groupId in the registry is answered from the registry, whatever the
    store holds. *)
Lemma getInstance_hit g s l :
  _instances s !! g = Some l → getInstance g s = Ok (JObj l) s.
Proof.
  intros H. unfold getInstance, getInstance_begin.
  by rewrite (Map_get_hit _ _ _ H).
Qed.

(** The first access of a groupId with a record allocates one object and
    registers it. *)
Lemma getInstance_first g s d :
  _instances s !! g = None → Experiments_findOne g s = Some d →
  getInstance g s =
    Ok (JObj (length (heap s)))
       (set_instances (<[g := length (heap s)]>)
          (set_heap (λ h, h ++ [ {| groupId := g |} ]) s)).
Proof.
  intros Hreg Hrec. unfold getInstance, getInstance_begin.
  rewrite (Map_get_miss _ _ Hreg). simpl.
  unfold getInstance_resume, Instance_new. unfold_M. simpl.
  rewrite Hrec, (Map_get_miss _ _ Hreg). simpl.
  by rewrite (Map_get_miss _ _ Hreg).
Qed.

(** Sequentially the registry is idempotent: once a call has created the
    object, every later call returns that same object. *)
Lemma getInstance_again g s d :
  _instances s !! g = None → Experiments_findOne g s = Some d →
  ∃ l s1, getInstance g s = Ok (JObj l) s1 ∧ getInstance g s1 = Ok (JObj l) s1.
Proof.
  intros Hreg Hrec. eexists _, _. split.
  - by apply (getInstance_first g s d).
  - apply getInstance_hit. simpl. apply lookup_insert_eq.
Qed.

(** C1 (the code departs from the claim).  Two calls of
    [Instance.getInstance] that race on the first access of a groupId with
    a record: the fiber that resumes first creates and registers the
    object; the other does not get that object back, it fails in the
    constructor with "Instance already exists", because the re-check on
    line 47 can never succeed. *)
Theorem getInstance_race_second_throws (g : string) (s : State) (d : ExperimentDoc) :
  _instances s !! g = None →
  Experiments_findOne g s = Some d →
  ∃ l s1, getInstance_race g s = (Ok (JObj l) s1, Throw InstanceAlreadyExists s1)
          ∧ _instances s1 !! g = Some l.
Proof.
  intros Hreg Hrec.
  exists (length (heap s)),
    (set_instances (<[g := length (heap s)]>)
       (set_heap (λ h, h ++ [ {| groupId := g |} ]) s)).
  split; [| apply lookup_insert_eq].
  unfold getInstance_race, getInstance_begin.
  rewrite (Map_get_miss _ _ Hreg). simpl.
  unfold getInstance_resume, Instance_new. unfold_M. simpl.
  rewrite Hrec, (Map_get_miss _ _ Hreg). simpl.
  rewrite (Map_get_miss _ _ Hreg). simpl.
  unfold Experiments_findOne in *. simpl. rewrite Hrec.
  unfold Map_get. simpl. rewrite lookup_insert_eq. simpl.
  rewrite lookup_insert_eq. reflexivity.
Qed.

Lemma getInstance_race_second_throws_witness :
  _instances server_with_g1 !! "g1" = None ∧
  Experiments_findOne "g1" server_with_g1 = Some experiment_g1 ∧
  ∃ l s1, getInstance_race "g1" server_with_g1
            = (Ok (JObj l) s1, Throw InstanceAlreadyExists s1)
          ∧ _instances s1 !! "g1" = Some l.
Proof.
  split; [reflexivity |]. split; [reflexivity |].
  apply (getInstance_race_second_throws "g1" server_with_g1 experiment_g1); reflexivity.
Defined.

(** C8 (counterexample).  The test suite's cleanup removes the records of
    a batch while the registry keeps its objects: after it, the groupId has
    no backing record and [getInstance] still returns the object. *)
Lemma getInstance_cached_without_record :
  let s1 := final (getInstance "g1" server_with_g1) in
  let s2 := final (Experiments_remove_batch "b1" s1) in
  Experiments_findOne "g1" s2 = None
  ∧ getInstance "g1" s2 = Ok (JObj 0%nat) s2
  ∧ ∀ e s', getInstance "g1" s2 ≠ Throw e s'.
Proof. split; [reflexivity |]. split; [reflexivity | discriminate]. Qed.

(** C8 (amended).  For a groupId with no backing record, [getInstance]
    fails with the NotFound error "Instance does not exist", the state
    untouched, unless the registry already holds an object for the
    groupId: then it returns that object. *)
Theorem getInstance_missing_record (g : string) (s : State) :
  Experiments_findOne g s = None →
  match _instances s !! g with
  | None => getInstance g s = Throw (InstanceDoesNotExist g) s
            ∧ taxonomy (InstanceDoesNotExist g) = NotFound
  | Some l => getInstance g s = Ok (JObj l) s
  end.
Proof.
  intros Hrec. destruct (_instances s !! g) as [l |] eqn:Hreg.
  - by apply getInstance_hit.
  - split; [| reflexivity].
    unfold getInstance, getInstance_begin.
    rewrite (Map_get_miss _ _ Hreg). simpl.
    unfold getInstance_resume. unfold_M. simpl.
    by rewrite Hrec.
Qed.

Lemma getInstance_missing_record_witness :
  Experiments_findOne "g1" fresh_server = None ∧
  getInstance "g1" fresh_server = Throw (InstanceDoesNotExist "g1") fresh_server
  ∧ taxonomy (InstanceDoesNotExist "g1") = NotFound.
Proof.
  split; [reflexivity |].
  apply (getInstance_missing_record "g1" fresh_server). reflexivity.
Defined.

(** ** Reading a record back after an update *)

(** [findOne(id)] returns the first record with this [_id], and an update
    whose selector includes the [_id] rewrites the first record that meets
    the whole selector: the record read back is the old one, rewritten when
    it meets the rest of the selector. *)
Lemma find_update_first (id : string) (q : ExperimentDoc → bool)
    (f : ExperimentDoc → ExperimentDoc) (l : list ExperimentDoc) :
  (∀ d, exp_id (f d) = exp_id d) →
  List.find (λ d, String.eqb (exp_id d) id)
    (update_first (λ d, String.eqb (exp_id d) id && q d) f l)
  = (λ d, if q d then f d else d) <$> List.find (λ d, String.eqb (exp_id d) id) l.
Proof.
  intros Hid. induction l as [| d l IH]; [reflexivity |]. simpl.
  destruct (String.eqb (exp_id d) id) eqn:E; simpl.
  - destruct (q d); simpl.
    + by rewrite Hid, E.
    + by rewrite E.
  - by rewrite E.
Qed.

Lemma update_first_ext {A} (p p' : A → bool) (f : A → A) (l : list A) :
  (∀ x, p x = p' x) → update_first p f l = update_first p' f l.
Proof.
  intros H. induction l as [| x l IH]; [reflexivity |]. simpl.
  by rewrite H, IH.
Qed.

Lemma findOne_Experiments_update (id : string) (f : ExperimentDoc → ExperimentDoc) (s : State) :
  (∀ d, exp_id (f d) = exp_id d) →
  Experiments_findOne id (final (Experiments_update id f s))
  = f <$> Experiments_findOne id s.
Proof.
  intros Hid. unfold Experiments_findOne, Experiments_update. unfold_M. simpl.
  rewrite (update_first_ext _ (λ d, String.eqb (exp_id d) id && true))
    by (intros; by rewrite andb_true_r).
  by rewrite find_update_first.
Qed.

(** ** addAssignment *)

Lemma addAssignment_open this asst s :
  default false (isEnded this s) = false →
  addAssignment this asst s = Ok tt (joined this asst s).
Proof.
  intros H. unfold addAssignment. unfold_M. simpl. rewrite H. reflexivity.
Qed.

Lemma addAssignment_closed this asst s :
  default false (isEnded this s) = true →
  addAssignment this asst s = Throw CannotAddToEnded s.
Proof.
  intros H. unfold addAssignment. unfold_M. simpl. rewrite H. reflexivity.
Qed.

Lemma isEnded_record this s d :
  Experiments_findOne (groupId this) s = Some d →
  isEnded this s = Some (bool_decide (endTime d ≠ None)).
Proof. intros H. unfold isEnded. by rewrite H. Qed.

(** C2.  On an Instance whose [endTime] is set, [isEnded()] is true and
    [addAssignment] throws the StateError "Cannot add a user to an instance
    that has ended" before it writes anything: the Instance's membership,
    the user's group mapping, the worker state and the Assignment's
    instance history are as they were (the whole state is). *)
Theorem addAssignment_ended_fails (this : Instance) (asst : Assignment) (s : State)
    (d : ExperimentDoc) (e : Z) :
  Experiments_findOne (groupId this) s = Some d →
  endTime d = Some e →
  isEnded this s = Some true
  ∧ addAssignment this asst s = Throw CannotAddToEnded s
  ∧ taxonomy CannotAddToEnded = StateError
  ∧ Experiments (final (addAssignment this asst s)) = Experiments s
  ∧ Grouping (final (addAssignment this asst s)) = Grouping s
  ∧ Meteor_users (final (addAssignment this asst s)) = Meteor_users s
  ∧ Assignments (final (addAssignment this asst s)) = Assignments s.
Proof.
  intros Hrec Hend.
  assert (Hended : isEnded this s = Some true).
  { rewrite (isEnded_record _ _ _ Hrec), Hend. reflexivity. }
  assert (Hthrow : addAssignment this asst s = Throw CannotAddToEnded s).
  { apply addAssignment_closed. by rewrite Hended. }
  rewrite Hthrow. simpl. by repeat split.
Qed.

Lemma addAssignment_ended_fails_witness :
  Experiments_findOne (groupId instance_g1) server_with_ended_g1 = Some experiment_g1_ended ∧
  endTime experiment_g1_ended = Some 2000 ∧
  addAssignment instance_g1 asst_a1 server_with_ended_g1
    = Throw CannotAddToEnded server_with_ended_g1.
Proof.
  split; [reflexivity |]. split; [reflexivity |].
  apply (addAssignment_ended_fails instance_g1 asst_a1 server_with_ended_g1
           experiment_g1_ended 2000); reflexivity.
Defined.

Lemma findOne_joined this asst s :
  Experiments_findOne (groupId this) (joined this asst s)
  = (λ d, if bool_decide (startTime d = None)
          then set_startTime (Some (Date_now s (Date_reads s))) d else d)
      <$> (set_users (addToSet (userId asst)) <$> Experiments_findOne (groupId this) s).
Proof.
  unfold joined, Assignment_joinInstance, Assignments_update. unfold_M.
  unfold Experiments_findOne. simpl.
  rewrite find_update_first by reflexivity. f_equal.
  rewrite (update_first_ext _ (λ d, String.eqb (exp_id d) (groupId this) && true))
    by (intros; by rewrite andb_true_r).
  by rewrite find_update_first.
Qed.

(** One call, whatever its outcome, keeps a [startTime] that is set. *)
Lemma addAssignment_keeps_startTime this asst s t :
  startTime_of (groupId this) s = Some t →
  startTime_of (groupId this) (final (addAssignment this asst s)) = Some t.
Proof.
  intros H. destruct (default false (isEnded this s)) eqn:E.
  - by rewrite (addAssignment_closed _ _ _ E).
  - rewrite (addAssignment_open _ _ _ E). simpl.
    unfold startTime_of in *. rewrite findOne_joined.
    destruct (Experiments_findOne (groupId this) s) as [d |]; [| done]. simpl in *.
    rewrite H. by case_bool_decide.
Qed.

Lemma addAssignments_keep_startTime this rest s t :
  startTime_of (groupId this) s = Some t →
  startTime_of (groupId this) (addAssignments this rest s) = Some t.
Proof.
  revert s. induction rest as [| a rest IH]; intros s H; [done |]. simpl.
  apply IH. by apply addAssignment_keeps_startTime.
Qed.

(** C4.  On an open Instance whose [startTime] is still null, the first
    [addAssignment] succeeds and sets [startTime] to the time it read; no
    [addAssignment] made afterwards, in any number, changes it. *)
Theorem startTime_set_once (this : Instance) (asst : Assignment) (s : State)
    (d : ExperimentDoc) :
  Experiments_findOne (groupId this) s = Some d →
  startTime d = None →
  endTime d = None →
  succeeded (addAssignment this asst s) = true
  ∧ startTime_of (groupId this) (final (addAssignment this asst s))
    = Some (Date_now s (Date_reads s))
  ∧ ∀ rest : list Assignment,
      startTime_of (groupId this)
        (addAssignments this rest (final (addAssignment this asst s)))
      = Some (Date_now s (Date_reads s)).
Proof.
  intros Hrec Hstart Hend.
  assert (Hopen : default false (isEnded this s) = false).
  { rewrite (isEnded_record _ _ _ Hrec), Hend. reflexivity. }
  rewrite (addAssignment_open _ _ _ Hopen). simpl.
  assert (Hset : startTime_of (groupId this) (joined this asst s)
                 = Some (Date_now s (Date_reads s))).
  { unfold startTime_of. rewrite findOne_joined, Hrec. simpl. by rewrite Hstart. }
  split; [reflexivity |]. split; [exact Hset |].
  intros rest. by apply addAssignments_keep_startTime.
Qed.

Lemma startTime_set_once_witness :
  Experiments_findOne (groupId instance_g1) server_with_g1 = Some experiment_g1 ∧
  startTime_of "g1" (final (addAssignment instance_g1 asst_a1 server_with_g1)) = Some 1000 ∧
  startTime_of "g1"
    (addAssignments instance_g1 [asst_a2; asst_a1]
       (final (addAssignment instance_g1 asst_a1 server_with_g1))) = Some 1000.
Proof.
  split; [reflexivity |].
  destruct (startTime_set_once instance_g1 asst_a1 server_with_g1 experiment_g1)
    as (_ & H1 & H2); [reflexivity .. |].
  split; [exact H1 | exact (H2 [asst_a2; asst_a1])].
Defined.

(** ** getDuration *)

(** C6.  With [startTime] set, [getDuration()] is [endTime] minus
    [startTime] when [endTime] is set and the time it reads minus
    [startTime] otherwise; on an ended Instance it does not read the clock,
    and returns [endTime - startTime] in every state that holds the same
    record, whatever the clock has come to. *)
Theorem getDuration_spec (this : Instance) (s : State) (d : ExperimentDoc) (st : Z) :
  Experiments_findOne (groupId this) s = Some d →
  startTime d = Some st →
  getDuration this s
  = match endTime d with
    | Some e => Ok (Some (e - st)) s
    | None => Ok (Some (Date_now s (Date_reads s) - st)) (set_Date_reads S s)
    end
  ∧ ∀ (e : Z) (s' : State),
      endTime d = Some e →
      Experiments_findOne (groupId this) s' = Some d →
      getDuration this s' = Ok (Some (e - st)) s'.
Proof.
  intros Hrec Hstart. split.
  - unfold getDuration. unfold_M. simpl. rewrite Hrec, Hstart.
    by destruct (endTime d).
  - intros e s' Hend Hrec'. unfold getDuration. unfold_M. simpl.
    by rewrite Hrec', Hstart, Hend.
Qed.

Lemma getDuration_spec_witness :
  Experiments_findOne (groupId instance_g1) server_with_ended_g1 = Some experiment_g1_ended ∧
  startTime experiment_g1_ended = Some 1500 ∧
  getDuration instance_g1 server_with_ended_g1 = Ok (Some 500) server_with_ended_g1 ∧
  getDuration instance_g1 (set_Date_reads (λ _, 99%nat) server_with_ended_g1)
  = Ok (Some 500) (set_Date_reads (λ _, 99%nat) server_with_ended_g1).
Proof.
  split; [reflexivity |]. split; [reflexivity |].
  destruct (getDuration_spec instance_g1 server_with_ended_g1 experiment_g1_ended 1500)
    as [H1 H2]; [reflexivity .. |].
  split; [exact H1 |].
  apply (H2 2000 (set_Date_reads (λ _, 99%nat) server_with_ended_g1)); reflexivity.
Defined.

(** ** teardown *)

Lemma sendUserToLobby_frame this u s :
  Logs (final (sendUserToLobby this u s)) = Logs s
  ∧ Experiments (final (sendUserToLobby this u s)) = Experiments s.
Proof.
  unfold sendUserToLobby, Partitioner_clearUserGroup, Assignment_leaveInstance,
    Assignments_update, lobby_addAssignment. unfold_M. simpl.
  destruct (Assignment_getCurrentUserAssignment u _) as [a |]; simpl; [| done].
  destruct (batch this _) as [b |]; simpl; done.
Qed.

Lemma for_of_sendUserToLobby_frame this us s :
  Logs (final (for_of us (sendUserToLobby this) s)) = Logs s
  ∧ Experiments (final (for_of us (sendUserToLobby this) s)) = Experiments s.
Proof.
  revert s. induction us as [| u us IH]; intros s; [done |].
  simpl. unfold mbind, M_bind.
  destruct (sendUserToLobby_frame this u s) as [HL HE].
  destruct (sendUserToLobby this u s) as [[] s' | e s']; simpl in *.
  - destruct (IH s') as [HL' HE']. by rewrite HL', HE'.
  - done.
Qed.

(** What [teardown] has written when it reaches the test of
    [returnToLobby]. *)
Lemma teardown_no_return this s :
  teardown this false s
  = Ok tt
      (set_Experiments
         (update_first (λ d, String.eqb (exp_id d) (groupId this))
            (set_endTime (Some (Date_now s (Date_reads s)))))
         (set_Logs (λ l, l ++ [teardown_event this (Date_now s (Date_reads s))])
            (set_Date_reads S s))).
Proof. reflexivity. Qed.

(** C7.  [teardown] reads the clock once; the "teardown" log event it
    emits and the [endTime] it stores carry that one reading: the last
    event of the log is a "teardown" event whose timestamp is the reading,
    and the [endTime] read back from the stored record of the Instance,
    when it has one, is the same reading.  Called with
    [returnToLobby = false] it returns right after storing [endTime]: group
    mappings, Assignments, the Lobby and the worker states are as they
    were. *)
Theorem teardown_single_timestamp (this : Instance) (returnToLobby : bool) (s : State) :
  Logs (final (teardown this returnToLobby s))
  = Logs s ++ [teardown_event this (Date_now s (Date_reads s))]
  ∧ Experiments (final (teardown this returnToLobby s))
    = update_first (λ d, String.eqb (exp_id d) (groupId this))
        (set_endTime (Some (Date_now s (Date_reads s)))) (Experiments s)
  ∧ Experiments_findOne (groupId this) (final (teardown this returnToLobby s))
    = set_endTime (Some (Date_now s (Date_reads s))) <$> Experiments_findOne (groupId this) s
  ∧ Experiments_findOne (groupId this) (final (teardown this returnToLobby s)) ≫= endTime
    = Experiments_findOne (groupId this) s ≫= (λ _, Some (Date_now s (Date_reads s)))
  ∧ _timestamp <$> last (Logs (final (teardown this returnToLobby s)))
    = Some (Date_now s (Date_reads s))
  ∧ _meta <$> last (Logs (final (teardown this returnToLobby s))) = Some "teardown"
  ∧ succeeded (teardown this false s) = true
  ∧ Date_reads (final (teardown this false s)) = S (Date_reads s)
  ∧ Grouping (final (teardown this false s)) = Grouping s
  ∧ Assignments (final (teardown this false s)) = Assignments s
  ∧ LobbyStatus (final (teardown this false s)) = LobbyStatus s
  ∧ Meteor_users (final (teardown this false s)) = Meteor_users s.
Proof.
  assert (Hstore :
    Logs (final (teardown this returnToLobby s))
    = Logs s ++ [teardown_event this (Date_now s (Date_reads s))]
    ∧ Experiments (final (teardown this returnToLobby s))
      = update_first (λ d, String.eqb (exp_id d) (groupId this))
          (set_endTime (Some (Date_now s (Date_reads s)))) (Experiments s)).
  { destruct returnToLobby; [| by rewrite teardown_no_return].
    unfold teardown, Partitioner_bindGroup, TurkServer_log, Experiments_update.
    unfold_M. simpl.
    match goal with |- context [Experiments_findOne ?g ?s1] =>
      destruct (Experiments_findOne g s1) as [d |] eqn:E end; simpl; [| done].
    destruct (users d) as [us |]; simpl; [| done].
    match goal with |- context [for_of us ?f ?s1] =>
      destruct (for_of_sendUserToLobby_frame this us s1) as [HL HE] end.
    by rewrite HL, HE. }
  destruct Hstore as [HL HE].
  assert (Hrec :
    Experiments_findOne (groupId this) (final (teardown this returnToLobby s))
    = set_endTime (Some (Date_now s (Date_reads s)))
        <$> Experiments_findOne (groupId this) s).
  { unfold Experiments_findOne. rewrite HE.
    rewrite (update_first_ext _ (λ d, String.eqb (exp_id d) (groupId this) && true))
      by (intros; by rewrite andb_true_r).
    by rewrite find_update_first. }
  split; [exact HL |]. split; [exact HE |]. split; [exact Hrec |].
  split; [| split; [| split]].
  - rewrite Hrec. by destruct (Experiments_findOne (groupId this) s).
  - rewrite HL, last_snoc. reflexivity.
  - rewrite HL, last_snoc. reflexivity.
  - rewrite teardown_no_return. simpl. by repeat split.
Qed.

(** ** treatment *)

Lemma _mergeTreatments_snoc ts t :
  _mergeTreatments (ts ++ [t]) = params t ∪ _mergeTreatments ts.
Proof. unfold _mergeTreatments. by rewrite foldl_app. Qed.

(** Key by key, the merge holds the value of the last Treatment, in the
    order handed over, that sets the key. *)
Lemma _mergeTreatments_lookup (ts : list TreatmentDoc) (k : string) :
  _mergeTreatments ts !! k = last (omap (λ t, params t !! k) ts).
Proof.
  induction ts as [| t ts IH] using rev_ind; [done |].
  rewrite _mergeTreatments_snoc, lookup_union, omap_app. simpl.
  destruct (params t !! k) as [v |] eqn:E; simpl.
  - rewrite last_snoc. by destruct (_mergeTreatments ts !! k).
  - rewrite app_nil_r, <- IH. by destruct (_mergeTreatments ts !! k).
Qed.

(** C5 (counterexample).  Treatments A and B are stored in that order and
    both set ["k"]; the Instance lists them as B, A.  The merge in list
    order lets A override B; [treatment()] lets B override A. *)
Lemma treatment_not_in_list_order :
  treatment instance_g1 server_with_treatments ≫= (λ m, m !! "k") = Some "2"
  ∧ treatment_in_list_order instance_g1 server_with_treatments ≫= (λ m, m !! "k") = Some "1"
  ∧ treatment instance_g1 server_with_treatments
    ≠ treatment_in_list_order instance_g1 server_with_treatments.
Proof.
  assert (H1 : treatment instance_g1 server_with_treatments ≫= (λ m, m !! "k") = Some "2")
    by reflexivity.
  assert (H2 : treatment_in_list_order instance_g1 server_with_treatments
               ≫= (λ m, m !! "k") = Some "1") by reflexivity.
  split; [exact H1 |]. split; [exact H2 |].
  intros Heq. rewrite Heq, H2 in H1. discriminate H1.
Qed.

(** C5 (amended).  [treatment()] merges the stored Treatments whose name
    is in the Instance's list, in the order the Treatments collection
    stores them: each key has the value of the last such Treatment, in
    stored order, that sets it. *)
Theorem treatment_merges_in_store_order (this : Instance) (s : State) (d : ExperimentDoc) :
  Experiments_findOne (groupId this) s = Some d →
  ∃ m : gmap string string,
    treatment this s = Some m
    ∧ ∀ k : string,
        m !! k = last (omap (λ t, params t !! k)
                        (List.filter (λ t, bool_decide (name t ∈ treatments d)) (Treatments s))).
Proof.
  intros Hrec. eexists. split.
  - unfold treatment. rewrite Hrec. reflexivity.
  - intros k. apply _mergeTreatments_lookup.
Qed.

Lemma treatment_merges_in_store_order_witness :
  Experiments_findOne (groupId instance_g1) server_with_treatments = Some experiment_g1 ∧
  ∃ m : gmap string string,
    treatment instance_g1 server_with_treatments = Some m
    ∧ ∀ k : string,
        m !! k = last (omap (λ t, params t !! k)
                        (List.filter (λ t, bool_decide (name t ∈ treatments experiment_g1))
                           (Treatments server_with_treatments))).
Proof.
  split; [reflexivity |].
  apply (treatment_merges_in_store_order instance_g1 server_with_treatments experiment_g1).
  reflexivity.
Defined.

Lemma omap_find_skip (t : TreatmentDoc) (ts : list TreatmentDoc) (names : list string) :
  name t ∉ names →
  omap (λ n, List.find (λ t', String.eqb (name t') n) (t :: ts)) names
  = omap (λ n, List.find (λ t', String.eqb (name t') n) ts) names.
Proof.
  induction names as [| n names IH]; intros Hnot; [done |].
  apply not_elem_of_cons in Hnot as [Hne Hnot].
  assert (Hn : List.find (λ t', String.eqb (name t') n) (t :: ts)
               = List.find (λ t', String.eqb (name t') n) ts).
  { simpl. by destruct (String.eqb_spec (name t) n). }
  cbn [omap list_omap]. rewrite Hn.
  specialize (IH Hnot). cbn [omap] in IH. by rewrite IH.
Qed.

Lemma filter_named_skip (x : string) (ts : list TreatmentDoc) (names : list string) :
  x ∉ map name ts →
  List.filter (λ t, bool_decide (name t ∈ x :: names)) ts
  = List.filter (λ t, bool_decide (name t ∈ names)) ts.
Proof.
  intros Hnot. apply List.filter_ext_in. intros t Hin.
  apply bool_decide_ext. rewrite elem_of_cons.
  split; [| by right]. intros [E | H]; [| done].
  exfalso. apply Hnot, list_elem_of_fmap. exists t. split; [done |].
  by apply list_elem_of_In.
Qed.

Lemma named_in_store_order (ts : list TreatmentDoc) (names : list string) :
  NoDup (map name ts) →
  sublist names (map name ts) →
  List.filter (λ t, bool_decide (name t ∈ names)) ts
  = omap (λ n, List.find (λ t, String.eqb (name t) n) ts) names.
Proof.
  revert names. induction ts as [| t ts IH]; intros names Hnd Hsub.
  - apply sublist_nil_r in Hsub as ->. reflexivity.
  - simpl in Hnd, Hsub. apply NoDup_cons in Hnd as [Hfresh Hnd].
    apply sublist_cons_r in Hsub as [Hsub | (names' & -> & Hsub)].
    + assert (Hnot : name t ∉ names).
      { intros Hin. apply Hfresh. by eapply elem_of_sublist. }
      rewrite (omap_find_skip _ _ _ Hnot). simpl.
      rewrite bool_decide_eq_false_2 by done. by apply IH.
    + assert (Hnot : name t ∉ names').
      { intros Hin. apply Hfresh. by eapply elem_of_sublist. }
      cbn [omap list_omap]. rewrite (omap_find_skip _ _ _ Hnot).
      cbn [List.find List.filter].
      rewrite String.eqb_refl, bool_decide_eq_true_2 by (by left).
      rewrite (filter_named_skip _ _ _ Hfresh). f_equal.
      by apply IH.
Qed.

(** Where the spec's reading is right: when the Instance lists stored
    Treatments, each once, in the order the collection stores them,
    [treatment()] is the merge in list order. *)
Lemma treatment_agrees_when_listed_in_store_order (this : Instance) (s : State)
    (d : ExperimentDoc) :
  Experiments_findOne (groupId this) s = Some d →
  NoDup (map name (Treatments s)) →
  sublist (treatments d) (map name (Treatments s)) →
  treatment this s = treatment_in_list_order this s.
Proof.
  intros Hrec Hnd Hsub. unfold treatment, treatment_in_list_order. rewrite Hrec. simpl.
  unfold Treatments_find_name_in, treatments_in_list_order.
  by rewrite named_in_store_order.
Qed.

(** ** The sequential policy *)

Section PoliciesFacts.

Variable Lobby_addUser : string → M unit.
Variable Experiment_addUser : option string → string → M unit.
Variable experiment_addUser : string → string → M unit.
Variable Experiment_create : option string → bool → M string.
Variable Experiment_setup : string → string → M unit.

Local Abbreviation assignUserRoundRobin := (assignUserRoundRobin Experiment_addUser).
Local Abbreviation forEach_scan := (forEach_scan experiment_addUser).
Local Abbreviation assignUserSequential :=
  (assignUserSequential Experiment_addUser experiment_addUser
     Experiment_create Experiment_setup).
Local Abbreviation handleConnection :=
  (handleConnection Lobby_addUser Experiment_addUser experiment_addUser
     Experiment_create Experiment_setup).

(** Once the flag is set the remaining callbacks return at once. *)
Lemma forEach_scan_assigned activeBatch u cursor s :
  forEach_scan activeBatch u cursor true s = Ok true s.
Proof.
  induction cursor as [| exp rest IH]; [reflexivity |].
  simpl. unfold_M. simpl. exact IH.
Qed.

(** A scan that finds room nowhere leaves the flag unset and the state
    as it was. *)
Lemma forEach_scan_no_room b u cursor s :
  Forall (λ exp, has_room b s exp = false) cursor →
  forEach_scan (Some b) u cursor false s = Ok false s.
Proof.
  induction 1 as [| exp rest Hexp _ IH]; [reflexivity |].
  simpl. unfold scan_step. unfold_M. simpl.
  unfold has_room in Hexp. rewrite Hexp. exact IH.
Qed.

(** The scan gives the participant to the first stored assignable
    Instance with room, and to no other. *)
Lemma forEach_scan_first_room b u pre exp post s :
  Forall (λ exp, has_room b s exp = false) pre →
  has_room b s exp = true →
  forEach_scan (Some b) u (pre ++ exp :: post) false s
  = match experiment_addUser (exp_id exp) u s with
    | Ok _ s' => Ok true s'
    | Throw e s' => Throw e s'
    end.
Proof.
  intros Hpre Hexp. induction Hpre as [| x pre Hx _ IH].
  - simpl. unfold scan_step. unfold_M. simpl.
    unfold has_room in Hexp. rewrite Hexp.
    destruct (experiment_addUser (exp_id exp) u s) as [[] s' | e s']; [| done].
    apply forEach_scan_assigned.
  - simpl. unfold scan_step. unfold_M. simpl.
    unfold has_room in Hx. rewrite Hx. exact IH.
Qed.

Lemma assignUserSequential_existing b u pre exp post s :
  Batches_findOne_active s = Some b →
  Experiments_find_assignable s = pre ++ exp :: post →
  Forall (λ exp, has_room b s exp = false) pre →
  has_room b s exp = true →
  assignUserSequential u s = experiment_addUser (exp_id exp) u s.
Proof.
  intros Hb Hcur Hpre Hexp. unfold assignUserSequential.
  unfold mbind at 1, M_bind at 1, gets at 1. rewrite Hb.
  unfold mbind at 1, M_bind at 1, gets at 1. rewrite Hcur.
  unfold mbind at 1, M_bind at 1.
  rewrite (forEach_scan_first_room _ _ _ _ _ _ Hpre Hexp).
  by destruct (experiment_addUser (exp_id exp) u s) as [[] s' | e s'].
Qed.

(** C3 (the code departs from the claim).  When no stored assignable
    Instance has room, [assignUserSequential] calls
    [TurkServer.Experiment.create] for an assignable Instance and then
    reads [.name] of [Treatments.findOne(undefined)]: wherever the
    creation succeeds the call ends in a TypeError, in the state the
    creation left, and the participant is added nowhere. *)
Theorem assignUserSequential_no_room_throws (b : BatchDoc) (u : string) (s : State) :
  Batches_findOne_active s = Some b →
  Forall (λ exp, has_room b s exp = false) (Experiments_find_assignable s) →
  assignUserSequential u s
  = match Experiment_create None true s with
    | Ok _ s' => Throw TypeError s'
    | Throw e s' => Throw e s'
    end.
Proof.
  intros Hb Hnone. unfold assignUserSequential.
  unfold mbind at 1, M_bind at 1, gets at 1. rewrite Hb.
  unfold mbind at 1, M_bind at 1, gets at 1.
  unfold mbind at 1, M_bind at 1.
  rewrite (forEach_scan_no_room _ _ _ _ Hnone).
  unfold_M. by destruct (Experiment_create None true s).
Qed.

End PoliciesFacts.

Lemma assignUserSequential_no_room_throws_witness :
  Batches_findOne_active server_sequential = Some batch_b1 ∧
  Experiments_find_assignable server_sequential = [] ∧
  succeeded (ex_Experiment_create None true server_sequential) = true ∧
  ∃ s', assignUserSequential ex_Experiment_addUser ex_experiment_addUser
          ex_Experiment_create ex_Experiment_setup "u2" server_sequential
        = Throw TypeError s'
        ∧ Grouping s' !! "u2" = None.
Proof.
  split; [reflexivity |]. split; [reflexivity |]. split; [reflexivity |].
  eexists. split.
  - rewrite (assignUserSequential_no_room_throws ex_Experiment_addUser
               ex_experiment_addUser ex_Experiment_create ex_Experiment_setup
               batch_b1 "u2" server_sequential); [reflexivity | reflexivity |].
    apply Forall_nil_2.
  - reflexivity.
Defined.

(** ** handleConnection: the Assignment records *)

Lemma Assignments_recorded doc s :
  Assignments (assignment_recorded doc s)
  = upserted doc (Random_id s (Random_draws s)) (returned_others doc (Assignments s)).
Proof.
  unfold assignment_recorded, Assignments_update_multi, Assignments_upsert_assigned,
    upserted, returned_others.
  unfold_M. simpl.
  by destruct (existsb (this_worker doc) _).
Qed.

Lemma assigned_is_this_worker doc d :
  (other_worker doc d = true → status d = Some RETURNED) →
  assigned_for doc d = true → this_worker doc d = true.
Proof.
  unfold other_worker, assigned_for, this_worker.
  destruct (same_assignment doc d); simpl; [| done].
  destruct (String.eqb (workerId d) (conn_workerId doc)); simpl; [done |].
  intros H Hs. rewrite H in Hs by done. done.
Qed.

Lemma returned_others_sound doc l : others_returned doc (returned_others doc l).
Proof.
  unfold others_returned, returned_others.
  induction l as [| d l IH]; simpl; constructor; [| exact IH].
  destruct (other_worker doc d) eqn:E; [done |].
  intros H. congruence.
Qed.

Lemma returned_others_this_worker doc l :
  List.filter (this_worker doc) (returned_others doc l) = List.filter (this_worker doc) l.
Proof.
  unfold returned_others. induction l as [| d l IH]; [reflexivity |]. simpl.
  destruct (other_worker doc d) eqn:E.
  - replace (this_worker doc (set_status RETURNED d)) with (this_worker doc d) by reflexivity.
    assert (Hnot : this_worker doc d = false).
    { unfold other_worker, this_worker in *.
      destruct (same_assignment doc d); [| done].
      by destruct (String.eqb (workerId d) (conn_workerId doc)). }
    by rewrite Hnot.
  - by rewrite IH.
Qed.

Lemma upserted_others_returned doc id l :
  others_returned doc l → others_returned doc (upserted doc id l).
Proof.
  unfold others_returned, upserted. intros H.
  assert (Hnot : ∀ d, this_worker doc d = true → other_worker doc d = false).
  { intros d. unfold other_worker, this_worker.
    destruct (same_assignment doc d); [| done].
    by destruct (String.eqb (workerId d) (conn_workerId doc)). }
  destruct (existsb (this_worker doc) l).
  - induction H as [| d l Hd Hl IH]; [constructor |]. simpl.
    destruct (this_worker doc d) eqn:E.
    + constructor; [| exact Hl].
      replace (other_worker doc (set_status ASSIGNED d)) with (other_worker doc d)
        by reflexivity.
      rewrite (Hnot _ E). done.
    + by constructor.
  - apply Forall_app. split; [done |]. constructor; [| constructor].
    unfold other_worker, same_assignment. simpl.
    rewrite !String.eqb_refl. done.
Qed.

Lemma no_this_worker_no_assigned doc l :
  others_returned doc l →
  List.filter (this_worker doc) l = [] →
  List.filter (assigned_for doc) l = [].
Proof.
  unfold others_returned. induction 1 as [| d l Hd _ IH]; [done |]. simpl.
  destruct (this_worker doc d) eqn:E; [done |]. intros Hl.
  destruct (assigned_for doc d) eqn:Ea; [| by apply IH].
  rewrite (assigned_is_this_worker _ _ Hd Ea) in E. done.
Qed.

(** After the upsert exactly one record of [doc]'s assignment is ASSIGNED,
    the connecting worker's. *)
Lemma upserted_one_assigned doc id l :
  others_returned doc l →
  (length (List.filter (this_worker doc) l) ≤ 1)%nat →
  ∃ d, List.filter (assigned_for doc) (upserted doc id l) = [d]
       ∧ this_worker doc d = true.
Proof.
  unfold upserted. intros H.
  induction H as [| d l Hd Hl IH]; intros Hone.
  - simpl. eexists. split.
    + unfold assigned_for, same_assignment. simpl. rewrite !String.eqb_refl. reflexivity.
    + unfold this_worker, same_assignment. simpl. by rewrite !String.eqb_refl.
  - simpl in *. destruct (this_worker doc d) eqn:E; simpl in *.
    + exists (set_status ASSIGNED d). split; [| exact E].
      assert (Ha : assigned_for doc (set_status ASSIGNED d) = true).
      { unfold this_worker in E. unfold assigned_for.
        replace (same_assignment doc (set_status ASSIGNED d)) with (same_assignment doc d)
          by reflexivity.
        by destruct (same_assignment doc d). }
      rewrite Ha. f_equal. apply no_this_worker_no_assigned; [exact Hl |].
      destruct (List.filter (this_worker doc) l); [done | simpl in Hone; lia].
    + destruct (IH Hone) as (d' & Hf & Hw). exists d'. split; [| exact Hw].
      assert (Ha : assigned_for doc d = false).
      { destruct (assigned_for doc d) eqn:Ea; [| done].
        rewrite (assigned_is_this_worker _ _ Hd Ea) in E. done. }
      destruct (existsb (this_worker doc) l); simpl; by rewrite Ha.
Qed.

Lemma keeps_bind {A B} (c : M A) (k : A → M B) :
  keeps_Assignments c → (∀ a, keeps_Assignments (k a)) → keeps_Assignments (c ≫= k).
Proof.
  intros Hc Hk s. unfold mbind, M_bind. specialize (Hc s).
  destruct (c s) as [a s' | e s']; simpl in *; [| done].
  by rewrite Hk.
Qed.

Lemma keeps_ret {A} (a : A) : keeps_Assignments (mret a).
Proof. by intros s. Qed.

Lemma keeps_gets {A} (f : State → A) : keeps_Assignments (gets f).
Proof. by intros s. Qed.

Lemma keeps_throw {A} (e : error) : keeps_Assignments (@throw A e).
Proof. by intros s. Qed.

Lemma recorded_Ok doc s :
  (Assignments_update_multi (other_worker doc) (set_status RETURNED);;
   Assignments_upsert_assigned doc) s = Ok tt (assignment_recorded doc s).
Proof.
  unfold assignment_recorded, Assignments_update_multi, Assignments_upsert_assigned.
  unfold_M. simpl. by destruct (existsb (this_worker doc) _).
Qed.

(** The two writes touch [Assignments] and the id supply, nothing else. *)
Lemma recorded_frame doc s :
  Grouping (assignment_recorded doc s) = Grouping s
  ∧ LobbyStatus (assignment_recorded doc s) = LobbyStatus s
  ∧ Experiments (assignment_recorded doc s) = Experiments s
  ∧ Meteor_users (assignment_recorded doc s) = Meteor_users s
  ∧ Batches (assignment_recorded doc s) = Batches s.
Proof.
  unfold assignment_recorded, Assignments_update_multi, Assignments_upsert_assigned.
  unfold_M. simpl. by destruct (existsb (this_worker doc) _).
Qed.

(** ** The uniqueness the handler relies on is one it maintains *)

Lemma length_filter_map_keys {A} (p : A → bool) (f : A → A) (l : list A) :
  (∀ x, p (f x) = p x) →
  length (List.filter p (List.map f l)) = length (List.filter p l).
Proof.
  intros H. induction l as [| x l IH]; [reflexivity |]. simpl.
  rewrite H. destruct (p x); simpl; by rewrite IH.
Qed.

Lemma length_filter_update_first {A} (p q : A → bool) (f : A → A) (l : list A) :
  (∀ x, p (f x) = p x) →
  length (List.filter p (update_first q f l)) = length (List.filter p l).
Proof.
  intros H. induction l as [| x l IH]; [reflexivity |]. simpl.
  destruct (q x); simpl.
  - rewrite H. by destruct (p x).
  - destruct (p x); simpl; by rewrite IH.
Qed.

Lemma filter_none_of_existsb {A} (p : A → bool) (l : list A) :
  existsb p l = false → List.filter p l = [].
Proof.
  induction l as [| x l IH]; [done |]. simpl.
  destruct (p x); simpl; [done | exact IH].
Qed.

(** If the collection holds at most one record per worker on each
    assignment before [handleConnection], it does so after it. *)
Lemma upserted_keeps_unique doc id l :
  (∀ doc', (length (List.filter (this_worker doc') l) ≤ 1)%nat) →
  ∀ doc', (length (List.filter (this_worker doc')
                     (upserted doc id (returned_others doc l))) ≤ 1)%nat.
Proof.
  intros Hone doc'. unfold upserted.
  assert (Hret : length (List.filter (this_worker doc') (returned_others doc l))
                 = length (List.filter (this_worker doc') l)).
  { unfold returned_others. apply length_filter_map_keys.
    intros d. by destruct (other_worker doc d). }
  destruct (existsb (this_worker doc) (returned_others doc l)) eqn:E.
  - rewrite length_filter_update_first by reflexivity. rewrite Hret. apply Hone.
  - rewrite List.filter_app, length_app, Hret. simpl.
    match goal with |- context [this_worker doc' ?d] =>
      destruct (this_worker doc' d) eqn:Enew end; simpl; [| specialize (Hone doc'); lia].
    assert (Hsame : ∀ d, this_worker doc' d = this_worker doc d).
    { unfold this_worker, same_assignment in *. simpl in Enew.
      apply andb_true_iff in Enew as [Enew Ew].
      apply andb_true_iff in Enew as [Eh Ea].
      apply String.eqb_eq in Ew, Eh, Ea. intros d. by rewrite <- Ew, <- Eh, <- Ea. }
    apply filter_none_of_existsb in E.
    rewrite returned_others_this_worker in E.
    rewrite (List.filter_ext _ _ Hsame), E. simpl. lia.
Qed.

Section HandleConnection.

Variable Lobby_addUser : string → M unit.
Variable Experiment_addUser : option string → string → M unit.
Variable experiment_addUser : string → string → M unit.
Variable Experiment_create : option string → bool → M string.
Variable Experiment_setup : string → string → M unit.

Local Abbreviation assignUserRoundRobin := (assignUserRoundRobin Experiment_addUser).
Local Abbreviation forEach_scan := (forEach_scan experiment_addUser).
Local Abbreviation assignUserSequential :=
  (assignUserSequential Experiment_addUser experiment_addUser
     Experiment_create Experiment_setup).
Local Abbreviation handleConnection :=
  (handleConnection Lobby_addUser Experiment_addUser experiment_addUser
     Experiment_create Experiment_setup).

Lemma handleConnection_after_record doc s :
  handleConnection doc s
  = (g ← gets (Groups_getUserGroup (conn_userId doc));
     if truthy_string g then mret tt
     else
       activeBatch ← gets Batches_findOne_active;
       match activeBatch with
       | None => throw NoActiveBatch
       | Some b =>
           if String.eqb (grouping b) "groupSize" && lobby b
           then Lobby_addUser (conn_userId doc)
           else if String.eqb (grouping b) "groupCount"
           then assignUserRoundRobin (conn_userId doc)
           else assignUserSequential (conn_userId doc)
       end) (assignment_recorded doc s).
Proof.
  pose proof (recorded_Ok doc s) as H.
  unfold handleConnection.
  unfold mbind at 1 2, M_bind at 1 2.
  unfold mbind at 1, M_bind at 1 in H.
  destruct (Assignments_update_multi (other_worker doc) (set_status RETURNED) s)
    as [[] s1 | e s1]; [| done].
  by rewrite H.
Qed.

(** C10.  When the connecting user is mapped to a group (a group id is a
    store id, never the empty string, which the test on line 67 would take
    for no group), [handleConnection] returns as soon as the two
    Assignment writes are made, whatever the lobby and the policies would
    do and whether or not a batch is active:
    Lobby membership, the Instances' records, the group mapping and the
    worker states are as before the call. *)
Theorem handleConnection_grouped_returns (doc : Connection) (s : State) (g : string) :
  Groups_getUserGroup (conn_userId doc) s = Some g →
  g ≠ "" →
  handleConnection doc s = Ok tt (assignment_recorded doc s)
  ∧ LobbyStatus (final (handleConnection doc s)) = LobbyStatus s
  ∧ Experiments (final (handleConnection doc s)) = Experiments s
  ∧ Grouping (final (handleConnection doc s)) = Grouping s
  ∧ Meteor_users (final (handleConnection doc s)) = Meteor_users s.
Proof.
  intros Hg Hne.
  assert (H : handleConnection doc s = Ok tt (assignment_recorded doc s)).
  { rewrite handleConnection_after_record. unfold_M.
    destruct (recorded_frame doc s) as (HG & _).
    unfold Groups_getUserGroup in *. rewrite HG, Hg. simpl.
    by destruct (String.eqb_spec g ""). }
  rewrite H. simpl.
  destruct (recorded_frame doc s) as (HG & HL & HE & HU & _).
  by repeat split.
Qed.

Hypothesis Lobby_addUser_keeps : ∀ u, keeps_Assignments (Lobby_addUser u).
Hypothesis Experiment_addUser_keeps : ∀ g u, keeps_Assignments (Experiment_addUser g u).
Hypothesis experiment_addUser_keeps : ∀ g u, keeps_Assignments (experiment_addUser g u).
Hypothesis Experiment_create_keeps : ∀ t a, keeps_Assignments (Experiment_create t a).
Hypothesis Experiment_setup_keeps : ∀ g t, keeps_Assignments (Experiment_setup g t).

Lemma assignUserRoundRobin_keeps u : keeps_Assignments (assignUserRoundRobin u).
Proof.
  unfold assignUserRoundRobin.
  apply keeps_bind; [apply keeps_gets |]. intros [b |]; [| apply keeps_throw].
  apply keeps_bind; [apply keeps_gets |]. intros exps.
  apply keeps_bind; [apply keeps_gets |]. intros exp.
  apply Experiment_addUser_keeps.
Qed.

Lemma forEach_scan_keeps activeBatch u cursor flag :
  keeps_Assignments (forEach_scan activeBatch u cursor flag).
Proof.
  revert flag. induction cursor as [| exp rest IH]; intros flag; [apply keeps_ret |].
  simpl. apply keeps_bind; [| intros; apply IH].
  unfold scan_step. destruct flag; [apply keeps_ret |].
  apply keeps_bind; [apply keeps_gets |]. intros count.
  destruct activeBatch as [b |]; [| apply keeps_throw].
  destruct (below_groupVal count b); [| apply keeps_ret].
  apply keeps_bind; [apply experiment_addUser_keeps | intros; apply keeps_ret].
Qed.

Lemma assignUserSequential_keeps u : keeps_Assignments (assignUserSequential u).
Proof.
  unfold assignUserSequential.
  apply keeps_bind; [apply keeps_gets |]. intros activeBatch.
  apply keeps_bind; [apply keeps_gets |]. intros cursor.
  apply keeps_bind; [apply forEach_scan_keeps |]. intros [|]; [apply keeps_ret |].
  apply keeps_bind; [apply Experiment_create_keeps |]. intros newId.
  apply keeps_bind; [apply keeps_gets |]. intros [t |]; [| apply keeps_throw].
  apply keeps_bind; [apply Experiment_setup_keeps |]. intros _.
  apply Experiment_addUser_keeps.
Qed.

(** Whatever path the admission takes, the [Assignments] collection ends
    as the two writes left it. *)
Lemma handleConnection_Assignments doc s :
  Assignments (final (handleConnection doc s))
  = upserted doc (Random_id s (Random_draws s)) (returned_others doc (Assignments s)).
Proof.
  rewrite handleConnection_after_record, <- Assignments_recorded.
  generalize (assignment_recorded doc s). change (keeps_Assignments
    (g ← gets (Groups_getUserGroup (conn_userId doc));
     if truthy_string g then mret tt
     else
       activeBatch ← gets Batches_findOne_active;
       match activeBatch with
       | None => throw NoActiveBatch
       | Some b =>
           if String.eqb (grouping b) "groupSize" && lobby b
           then Lobby_addUser (conn_userId doc)
           else if String.eqb (grouping b) "groupCount"
           then assignUserRoundRobin (conn_userId doc)
           else assignUserSequential (conn_userId doc)
       end)).
  apply keeps_bind; [apply keeps_gets |]. intros g.
  destruct (truthy_string g); [apply keeps_ret |].
  apply keeps_bind; [apply keeps_gets |]. intros [b |]; [| apply keeps_throw].
  destruct (_ && _); [apply Lobby_addUser_keeps |].
  destruct (String.eqb _ _);
    [apply assignUserRoundRobin_keeps | apply assignUserSequential_keeps].
Qed.

(** C9.  The store holding at most one record for the connecting worker
    on [doc]'s hitId and assignmentId, and the lobby and experiment API
    leaving [Assignments] alone: after [handleConnection(doc)], however it
    ends, exactly one record with [doc]'s hitId and assignmentId has status
    ASSIGNED, and it is the connecting worker's; every record of another
    worker on that assignment is RETURNED, and was so already after the
    first write, before the upsert. *)
Theorem handleConnection_one_ASSIGNED (doc : Connection) (s : State) :
  (length (List.filter (this_worker doc) (Assignments s)) ≤ 1)%nat →
  (∃ d, List.filter (assigned_for doc) (Assignments (final (handleConnection doc s))) = [d]
        ∧ workerId d = conn_workerId doc)
  ∧ others_returned doc (Assignments (final (handleConnection doc s)))
  ∧ others_returned doc
      (Assignments
         (final (Assignments_update_multi (other_worker doc) (set_status RETURNED) s))).
Proof.
  intros Hone. rewrite handleConnection_Assignments.
  pose proof (returned_others_sound doc (Assignments s)) as Hret.
  split; [| split].
  - destruct (upserted_one_assigned doc (Random_id s (Random_draws s))
                (returned_others doc (Assignments s)) Hret) as (d & Hf & Hw).
    { by rewrite returned_others_this_worker. }
    exists d. split; [exact Hf |].
    unfold this_worker in Hw. apply andb_true_iff in Hw as [_ Hw].
    by apply String.eqb_eq.
  - by apply upserted_others_returned.
  - exact Hret.
Qed.

(** The hypothesis of the theorem is an invariant of the handler: a
    store with at most one record per worker on each assignment is so again
    after [handleConnection]. *)
Lemma handleConnection_keeps_unique (doc : Connection) (s : State) :
  (∀ doc', (length (List.filter (this_worker doc') (Assignments s)) ≤ 1)%nat) →
  ∀ doc', (length (List.filter (this_worker doc')
                     (Assignments (final (handleConnection doc s)))) ≤ 1)%nat.
Proof.
  intros Hone doc'. rewrite handleConnection_Assignments.
  by apply upserted_keeps_unique.
Qed.

End HandleConnection.

Lemma handleConnection_grouped_returns_witness :
  Groups_getUserGroup (conn_userId connection_w2) server_u2_in_group = Some "g1" ∧
  Batches_findOne_active server_u2_in_group = None ∧
  handleConnection ex_Lobby_addUser ex_Experiment_addUser ex_experiment_addUser
    ex_Experiment_create ex_Experiment_setup connection_w2 server_u2_in_group
  = Ok tt (assignment_recorded connection_w2 server_u2_in_group).
Proof.
  split; [reflexivity |]. split; [reflexivity |].
  apply (handleConnection_grouped_returns ex_Lobby_addUser ex_Experiment_addUser
           ex_experiment_addUser ex_Experiment_create ex_Experiment_setup
           connection_w2 server_u2_in_group "g1"); [reflexivity | discriminate].
Defined.

Lemma ex_Experiment_addUser_keeps g u : keeps_Assignments (ex_Experiment_addUser g u).
Proof. intros s. by destruct g. Qed.

Lemma handleConnection_one_ASSIGNED_witness :
  (length (List.filter (this_worker connection_w2) (Assignments server_sequential)) ≤ 1)%nat ∧
  (∃ d, List.filter (assigned_for connection_w2)
          (Assignments
             (final (handleConnection ex_Lobby_addUser ex_Experiment_addUser
                       ex_experiment_addUser ex_Experiment_create ex_Experiment_setup
                       connection_w2 server_sequential))) = [d]
        ∧ workerId d = conn_workerId connection_w2).
Proof.
  split; [simpl; lia |].
  apply (handleConnection_one_ASSIGNED ex_Lobby_addUser ex_Experiment_addUser
           ex_experiment_addUser ex_Experiment_create ex_Experiment_setup
           (λ u s, eq_refl) ex_Experiment_addUser_keeps (λ g u s, eq_refl)
           (λ t a s, eq_refl) (λ g t s, eq_refl)
           connection_w2 server_sequential).
  simpl; lia.
Defined.

(** * Further properties of the code *)

(** ** The registry, sequentially *)

Lemma getInstance_no_record g s :
  _instances s !! g = None → Experiments_findOne g s = None →
  getInstance g s = Throw (InstanceDoesNotExist g) s.
Proof.
  intros Hreg Hrec. unfold getInstance, getInstance_begin.
  rewrite (Map_get_miss _ _ Hreg). simpl.
  unfold getInstance_resume. unfold_M. simpl. by rewrite Hrec.
Qed.

(** The three ways a sequential call can go. *)
Lemma getInstance_cases g s :
  (∃ l, _instances s !! g = Some l ∧ getInstance g s = Ok (JObj l) s)
  ∨ (_instances s !! g = None ∧ getInstance g s = Throw (InstanceDoesNotExist g) s)
  ∨ (_instances s !! g = None
     ∧ getInstance g s
       = Ok (JObj (length (heap s)))
            (set_instances (<[g := length (heap s)]>)
               (set_heap (λ h, h ++ [ {| groupId := g |} ]) s))).
Proof.
  destruct (_instances s !! g) as [l |] eqn:Hreg.
  - left. exists l. split; [done |]. by apply getInstance_hit.
  - right. destruct (Experiments_findOne g s) as [d |] eqn:Hrec.
    + right. split; [done |]. by apply (getInstance_first g s d).
    + left. split; [done |]. by apply getInstance_no_record.
Qed.

Lemma getInstance_wf_step g s :
  registry_wf s → registry_wf (final (getInstance g s)).
Proof.
  intros Hwf.
  destruct (getInstance_cases g s) as [(l & Hreg & ->) | [(Hreg & ->) | (Hreg & ->)]];
    simpl; [done | done |].
  intros g' l'. simpl. destruct (decide (g = g')) as [<- | Hne].
  - rewrite lookup_insert_eq. intros [= <-].
    rewrite lookup_app_r by lia. by rewrite Nat.sub_diag.
  - rewrite lookup_insert_ne by done. intros H.
    apply lookup_app_l_Some. by apply Hwf.
Qed.

Lemma getInstance_returns_registered g s v s1 :
  getInstance g s = Ok v s1 → ∃ l, v = JObj l ∧ _instances s1 !! g = Some l.
Proof.
  intros H.
  destruct (getInstance_cases g s) as [(l & Hreg & E) | [(_ & E) | (_ & E)]];
    rewrite E in H; try discriminate H; injection H as <- <-.
  - by exists l.
  - eexists. split; [done |]. simpl. apply lookup_insert_eq.
Qed.

Lemma getInstance_registry_mono g s g' l :
  _instances s !! g' = Some l → _instances (final (getInstance g s)) !! g' = Some l.
Proof.
  intros H.
  destruct (getInstance_cases g s) as [(l0 & Hreg & ->) | [(Hreg & ->) | (Hreg & ->)]];
    simpl; [done | done |].
  destruct (decide (g = g')) as [<- | Hne]; [congruence |].
  by rewrite lookup_insert_ne.
Qed.

(** X1.  [getInstance] keeps the registry sound: if every registered
    object carried the groupId it is registered under before the call, so
    it is after, and the object a successful call returns carries the
    groupId asked for. *)
Theorem getInstance_keeps_registry_wf (g : string) (s : State) :
  registry_wf s →
  registry_wf (final (getInstance g s))
  ∧ ∀ l s1, getInstance g s = Ok (JObj l) s1 → heap s1 !! l = Some {| groupId := g |}.
Proof.
  intros Hwf. pose proof (getInstance_wf_step g s Hwf) as Hwf1.
  split; [exact Hwf1 |]. intros l s1 H. rewrite H in Hwf1. simpl in Hwf1.
  apply Hwf1. destruct (getInstance_returns_registered _ _ _ _ H) as (l' & [= <-] & Hreg).
  exact Hreg.
Qed.

Lemma getInstance_keeps_registry_wf_witness :
  registry_wf server_with_g1
  ∧ registry_wf (final (getInstance "g1" server_with_g1))
  ∧ ∀ l s1, getInstance "g1" server_with_g1 = Ok (JObj l) s1 →
            heap s1 !! l = Some {| groupId := "g1" |}.
Proof.
  assert (H : registry_wf server_with_g1).
  { intros g l. simpl. by rewrite lookup_empty. }
  split; [exact H |].
  exact (getInstance_keeps_registry_wf "g1" server_with_g1 H).
Defined.

(** X2.  A successful call is repeatable: it returns an object (never the
    boolean of the re-check), the object is then registered under the
    groupId, the same call made again returns the same object and changes
    nothing, and constructing an Instance for the groupId directly now
    throws "Instance already exists". *)
Theorem getInstance_repeatable (g : string) (s s1 : State) (v : jsval) :
  getInstance g s = Ok v s1 →
  ∃ l, v = JObj l
       ∧ _instances s1 !! g = Some l
       ∧ getInstance g s1 = Ok (JObj l) s1
       ∧ Instance_new g s1 = Throw InstanceAlreadyExists s1.
Proof.
  intros H. destruct (getInstance_returns_registered _ _ _ _ H) as (l & -> & Hreg).
  exists l. split; [done |]. split; [done |]. split.
  - by apply getInstance_hit.
  - unfold Instance_new. by rewrite (Map_get_hit _ _ _ Hreg).
Qed.

Lemma getInstance_repeatable_witness :
  getInstance "g1" server_with_g1 = Ok (JObj 0%nat) (final (getInstance "g1" server_with_g1))
  ∧ ∃ l, JObj 0%nat = JObj l
       ∧ _instances (final (getInstance "g1" server_with_g1)) !! "g1" = Some l
       ∧ getInstance "g1" (final (getInstance "g1" server_with_g1))
         = Ok (JObj l) (final (getInstance "g1" server_with_g1))
       ∧ Instance_new "g1" (final (getInstance "g1" server_with_g1))
         = Throw InstanceAlreadyExists (final (getInstance "g1" server_with_g1)).
Proof.
  split; [reflexivity |].
  apply (getInstance_repeatable "g1" server_with_g1
           (final (getInstance "g1" server_with_g1)) (JObj 0%nat)).
  reflexivity.
Defined.

(** X3.  [getInstance] writes nothing but the registry and the heap, and
    it never unregisters or replaces an object: every collection, and the
    clock and the id supply with them, is as it was, and whatever was
    registered before the call is registered, to the same object, after
    it. *)
Theorem getInstance_only_registers (g : string) (s : State) :
  Experiments (final (getInstance g s)) = Experiments s
  ∧ Treatments (final (getInstance g s)) = Treatments s
  ∧ Assignments (final (getInstance g s)) = Assignments s
  ∧ Meteor_users (final (getInstance g s)) = Meteor_users s
  ∧ Grouping (final (getInstance g s)) = Grouping s
  ∧ Batches (final (getInstance g s)) = Batches s
  ∧ LobbyStatus (final (getInstance g s)) = LobbyStatus s
  ∧ Logs (final (getInstance g s)) = Logs s
  ∧ Date_now (final (getInstance g s)) = Date_now s
  ∧ Date_reads (final (getInstance g s)) = Date_reads s
  ∧ Random_id (final (getInstance g s)) = Random_id s
  ∧ Random_draws (final (getInstance g s)) = Random_draws s
  ∧ ∀ g' l, _instances s !! g' = Some l → _instances (final (getInstance g s)) !! g' = Some l.
Proof.
  repeat (split;
    [by destruct (getInstance_cases g s)
          as [(l & Hreg & ->) | [(Hreg & ->) | (Hreg & ->)]] |]).
  intros g' l. apply getInstance_registry_mono.
Qed.

Lemma getInstance_only_registers_witness :
  _instances (final (getInstance "g1" server_with_g1_g2)) !! "g1" = Some 0%nat
  ∧ _instances (final (getInstance "g2" (final (getInstance "g1" server_with_g1_g2))))
      !! "g1" = Some 0%nat.
Proof.
  split; [reflexivity |].
  apply (getInstance_only_registers "g2" (final (getInstance "g1" server_with_g1_g2))).
  reflexivity.
Defined.

(** X4.  On a sound registry two groupIds never share an object: calls
    for different groupIds that both succeed return different objects. *)
Theorem getInstance_distinct_groups (g1 g2 : string) (s s1 s2 : State) (l1 l2 : nat) :
  registry_wf s →
  g1 ≠ g2 →
  getInstance g1 s = Ok (JObj l1) s1 →
  getInstance g2 s1 = Ok (JObj l2) s2 →
  l1 ≠ l2.
Proof.
  intros Hwf Hne H1 H2 Heq. subst l2.
  pose proof (getInstance_wf_step g1 s Hwf) as Hwf1. rewrite H1 in Hwf1. simpl in Hwf1.
  pose proof (getInstance_wf_step g2 s1 Hwf1) as Hwf2. rewrite H2 in Hwf2. simpl in Hwf2.
  destruct (getInstance_returns_registered _ _ _ _ H1) as (l & [= <-] & Hreg1).
  destruct (getInstance_returns_registered _ _ _ _ H2) as (l & [= <-] & Hreg2).
  pose proof (getInstance_registry_mono g2 s1 _ _ Hreg1) as Hmono.
  rewrite H2 in Hmono. simpl in Hmono.
  pose proof (Hwf2 _ _ Hmono) as Ha. pose proof (Hwf2 _ _ Hreg2) as Hb.
  rewrite Ha in Hb. congruence.
Qed.

Lemma getInstance_distinct_groups_witness :
  getInstance "g1" server_with_g1_g2
  = Ok (JObj 0%nat) (final (getInstance "g1" server_with_g1_g2))
  ∧ getInstance "g2" (final (getInstance "g1" server_with_g1_g2))
    = Ok (JObj 1%nat) (final (getInstance "g2" (final (getInstance "g1" server_with_g1_g2))))
  ∧ (0 ≠ 1)%nat.
Proof.
  split; [reflexivity |]. split; [reflexivity |].
  apply (getInstance_distinct_groups "g1" "g2" server_with_g1_g2
           (final (getInstance "g1" server_with_g1_g2))
           (final (getInstance "g2" (final (getInstance "g1" server_with_g1_g2))))
           0%nat 1%nat); [| discriminate | reflexivity | reflexivity].
  intros g l. simpl. by rewrite lookup_empty.
Defined.

(** ** Membership *)

Lemma update_first_no_match {A} (p : A → bool) (f : A → A) (l : list A) :
  List.find p l = None → update_first p f l = l.
Proof.
  induction l as [| x l IH]; [done |]. simpl.
  destruct (p x); [done |]. intros H. by rewrite IH.
Qed.

Lemma find_none_weaken {A} (p q : A → bool) (l : list A) :
  (∀ x, q x = true → p x = true) → List.find p l = None → List.find q l = None.
Proof.
  intros H. induction l as [| x l IH]; [done |]. simpl.
  destruct (p x) eqn:Ep; [done |]. intros Hl.
  destruct (q x) eqn:Eq; [| by apply IH].
  rewrite (H _ Eq) in Ep. discriminate Ep.
Qed.

Lemma map_update_first {A B} (g : A → B) (p : A → bool) (f : A → A) (l : list A) :
  (∀ x, g (f x) = g x) → List.map g (update_first p f l) = List.map g l.
Proof.
  intros H. induction l as [| x l IH]; [done |]. simpl.
  destruct (p x); simpl; [by rewrite H | by rewrite IH].
Qed.

Lemma find_update_first_other (id id' : string) (q : ExperimentDoc → bool)
    (f : ExperimentDoc → ExperimentDoc) (l : list ExperimentDoc) :
  id ≠ id' →
  (∀ d, exp_id (f d) = exp_id d) →
  List.find (λ d, String.eqb (exp_id d) id')
    (update_first (λ d, String.eqb (exp_id d) id && q d) f l)
  = List.find (λ d, String.eqb (exp_id d) id') l.
Proof.
  intros Hne Hid. induction l as [| d l IH]; [done |]. simpl.
  destruct (String.eqb_spec (exp_id d) id) as [E | E]; simpl.
  - destruct (q d); simpl; [| by rewrite IH].
    rewrite Hid. destruct (String.eqb_spec (exp_id d) id') as [E' | E']; [congruence | done].
  - by rewrite IH.
Qed.

Lemma Experiments_joined this asst s :
  Experiments (joined this asst s)
  = update_first
      (λ d, String.eqb (exp_id d) (groupId this) && bool_decide (startTime d = None))
      (set_startTime (Some (Date_now s (Date_reads s))))
      (update_first (λ d, String.eqb (exp_id d) (groupId this) && true)
         (set_users (addToSet (userId asst))) (Experiments s)).
Proof.
  unfold joined, Assignment_joinInstance, Assignments_update. unfold_M. simpl.
  f_equal. apply update_first_ext. intros d. by rewrite andb_true_r.
Qed.

Lemma users_of_joined this asst s :
  users_of (groupId this) (joined this asst s)
  = match Experiments_findOne (groupId this) s with
    | Some d => default [] (addToSet (userId asst) (users d))
    | None => []
    end.
Proof.
  unfold users_of. rewrite findOne_joined.
  destruct (Experiments_findOne (groupId this) s) as [d |]; [| done]. simpl.
  by case_bool_decide.
Qed.

Lemma addToSet_spec u us :
  default [] (addToSet u us)
  = if bool_decide (u ∈ default [] us) then default [] us else default [] us ++ [u].
Proof.
  destruct us as [l |]; simpl.
  - by case_bool_decide.
  - try rewrite bool_decide_eq_false_2 by apply not_elem_of_nil. done.
Qed.

(** One call either leaves the stored members as they are or appends one
    who was not among them. *)
Lemma users_of_step this asst s :
  users_of (groupId this) (final (addAssignment this asst s)) = users_of (groupId this) s
  ∨ ((userId asst ∉ users_of (groupId this) s)
     ∧ users_of (groupId this) (final (addAssignment this asst s))
       = users_of (groupId this) s ++ [userId asst]).
Proof.
  destruct (default false (isEnded this s)) eqn:E.
  - left. by rewrite (addAssignment_closed _ _ _ E).
  - rewrite (addAssignment_open _ _ _ E). simpl. rewrite users_of_joined.
    unfold users_of.
    destruct (Experiments_findOne (groupId this) s) as [d |]; simpl; [| by left].
    rewrite addToSet_spec. case_bool_decide; [by left | by right].
Qed.

(** X5.  On an open Instance with a record, [addAssignment] succeeds and
    [users()] then returns the old members followed by the new user, or
    just the old members if the user was one already: the user is a member,
    and a duplicate add changes nothing. *)
Theorem addAssignment_then_users (this : Instance) (asst : Assignment) (s : State)
    (d : ExperimentDoc) :
  Experiments_findOne (groupId this) s = Some d →
  endTime d = None →
  ∃ s', addAssignment this asst s = Ok tt s'
        ∧ Instance_users this s'
          = Ok (if bool_decide (userId asst ∈ default [] (users d))
                then default [] (users d)
                else default [] (users d) ++ [userId asst]) s'
        ∧ userId asst ∈ users_of (groupId this) s'.
Proof.
  intros Hrec Hend.
  assert (Hopen : default false (isEnded this s) = false).
  { rewrite (isEnded_record _ _ _ Hrec), Hend. reflexivity. }
  exists (joined this asst s). split; [by apply addAssignment_open |].
  pose proof (users_of_joined this asst s) as Hu. rewrite Hrec, addToSet_spec in Hu.
  split.
  - unfold Instance_users. unfold_M. simpl.
    unfold users_of in Hu.
    destruct (Experiments_findOne (groupId this) (joined this asst s)) as [d' |] eqn:E.
    + simpl in Hu. by rewrite Hu.
    + rewrite findOne_joined, Hrec in E. discriminate E.
  - rewrite Hu. case_bool_decide; [done |]. apply elem_of_app. right. by left.
Qed.

Lemma addAssignment_then_users_witness :
  Experiments_findOne (groupId instance_g1) server_with_g1_g2 = Some experiment_g1 ∧
  ∃ s', addAssignment instance_g1 asst_a1 server_with_g1_g2 = Ok tt s'
        ∧ Instance_users instance_g1 s' = Ok ["u1"] s'
        ∧ "u1" ∈ users_of "g1" s'.
Proof.
  split; [reflexivity |].
  apply (addAssignment_then_users instance_g1 asst_a1 server_with_g1_g2 experiment_g1);
    reflexivity.
Defined.

(** X6.  Membership is a set that only grows: over any run of
    [addAssignment] calls on an Instance the stored members stay free of
    duplicates, and the members before the run are a prefix of the members
    after it. *)
Theorem addAssignments_members_grow (this : Instance) (assts : list Assignment) (s : State) :
  NoDup (users_of (groupId this) s) →
  NoDup (users_of (groupId this) (addAssignments this assts s))
  ∧ users_of (groupId this) s `prefix_of` users_of (groupId this) (addAssignments this assts s).
Proof.
  revert s. induction assts as [| a rest IH]; intros s Hnd; [done |]. simpl.
  destruct (users_of_step this a s) as [E | [Hnot E]].
  - destruct (IH (final (addAssignment this a s))) as [H1 H2]; [by rewrite E |].
    rewrite E in H2. done.
  - destruct (IH (final (addAssignment this a s))) as [H1 H2].
    { rewrite E. apply NoDup_app. split; [done |]. split; [| apply NoDup_singleton].
      intros x Hx Hx'. apply list_elem_of_singleton in Hx'. by subst. }
    split; [done |]. rewrite E in H2.
    etrans; [| exact H2]. by apply prefix_app_r.
Qed.

Lemma addAssignments_members_grow_witness :
  NoDup (users_of "g2" server_with_g1_g2)
  ∧ NoDup (users_of "g2"
             (addAssignments {| groupId := "g2" |} [asst_a1; asst_a2; asst_a1] server_with_g1_g2))
  ∧ users_of "g2" server_with_g1_g2
    `prefix_of` users_of "g2"
       (addAssignments {| groupId := "g2" |} [asst_a1; asst_a2; asst_a1] server_with_g1_g2).
Proof.
  assert (H : NoDup (users_of "g2" server_with_g1_g2)).
  { apply (NoDup_cons_2 _ _); [| apply NoDup_singleton].
    intros Hin. apply list_elem_of_singleton in Hin. discriminate Hin. }
  split; [exact H |].
  exact (addAssignments_members_grow {| groupId := "g2" |} [asst_a1; asst_a2; asst_a1]
           server_with_g1_g2 H).
Defined.

(** X7.  An Instance whose record is missing is not ended as far as
    [addAssignment] can tell: the call succeeds, maps the user to the group
    and creates no record, so that [users()] on the Instance still throws. *)
Theorem addAssignment_missing_record (this : Instance) (asst : Assignment) (s : State) :
  Experiments_findOne (groupId this) s = None →
  ∃ s', addAssignment this asst s = Ok tt s'
        ∧ Experiments s' = Experiments s
        ∧ Grouping s' !! userId asst = Some (groupId this)
        ∧ Instance_users this s' = Throw TypeError s'.
Proof.
  intros Hrec.
  assert (Hopen : default false (isEnded this s) = false).
  { unfold isEnded. by rewrite Hrec. }
  assert (Hsame : Experiments (joined this asst s) = Experiments s).
  { rewrite Experiments_joined.
    assert (H1 : update_first (λ d, String.eqb (exp_id d) (groupId this) && true)
                   (set_users (addToSet (userId asst))) (Experiments s) = Experiments s).
    { apply update_first_no_match. unfold Experiments_findOne in Hrec.
      revert Hrec. apply find_none_weaken. intros d Hd.
      by apply andb_true_iff in Hd as [Hd _]. }
    rewrite H1. apply update_first_no_match.
    unfold Experiments_findOne in Hrec.
    revert Hrec. apply find_none_weaken. intros d Hd.
    by apply andb_true_iff in Hd as [Hd _]. }
  exists (joined this asst s). split; [by apply addAssignment_open |].
  split; [exact Hsame |]. split.
  - unfold joined, Assignment_joinInstance, Assignments_update. unfold_M. simpl.
    apply lookup_insert_eq.
  - unfold Instance_users. unfold_M. simpl.
    unfold Experiments_findOne in *. by rewrite Hsame, Hrec.
Qed.

Lemma addAssignment_missing_record_witness :
  Experiments_findOne (groupId instance_g1) fresh_server = None ∧
  ∃ s', addAssignment instance_g1 asst_a1 fresh_server = Ok tt s'
        ∧ Experiments s' = Experiments fresh_server
        ∧ Grouping s' !! userId asst_a1 = Some (groupId instance_g1)
        ∧ Instance_users instance_g1 s' = Throw TypeError s'.
Proof.
  split; [reflexivity |].
  apply (addAssignment_missing_record instance_g1 asst_a1 fresh_server). reflexivity.
Defined.

(** ** The life of an Instance *)

Lemma teardown_store this returnToLobby s :
  Logs (final (teardown this returnToLobby s))
  = Logs s ++ [teardown_event this (Date_now s (Date_reads s))]
  ∧ Experiments (final (teardown this returnToLobby s))
    = update_first (λ d, String.eqb (exp_id d) (groupId this) && true)
        (set_endTime (Some (Date_now s (Date_reads s)))) (Experiments s).
Proof.
  assert (Hext : update_first (λ d, String.eqb (exp_id d) (groupId this))
                   (set_endTime (Some (Date_now s (Date_reads s)))) (Experiments s)
                 = update_first (λ d, String.eqb (exp_id d) (groupId this) && true)
                     (set_endTime (Some (Date_now s (Date_reads s)))) (Experiments s)).
  { apply update_first_ext. intros d. by rewrite andb_true_r. }
  rewrite <- Hext.
  destruct returnToLobby; [| by rewrite teardown_no_return].
  unfold teardown, Partitioner_bindGroup, TurkServer_log, Experiments_update.
  unfold_M. simpl.
  match goal with |- context [Experiments_findOne ?g ?s1] =>
    destruct (Experiments_findOne g s1) as [d |] eqn:E end; simpl; [| done].
  destruct (users d) as [us |]; simpl; [| done].
  match goal with |- context [for_of us ?f ?s1] =>
    destruct (for_of_sendUserToLobby_frame this us s1) as [HL HE] end.
  by rewrite HL, HE.
Qed.

Lemma teardown_findOne this returnToLobby s :
  Experiments_findOne (groupId this) (final (teardown this returnToLobby s))
  = set_endTime (Some (Date_now s (Date_reads s))) <$> Experiments_findOne (groupId this) s.
Proof.
  destruct (teardown_store this returnToLobby s) as [_ HE].
  unfold Experiments_findOne. rewrite HE. by rewrite find_update_first.
Qed.

(** What [teardown(true)] goes on to do once [endTime] is stored. *)
Lemma teardown_return this s :
  teardown this true s
  = match Experiments_findOne (groupId this) (final (teardown this false s)) with
    | None => Throw TypeError (final (teardown this false s))
    | Some d =>
        match users d with
        | None => Ok tt (final (teardown this false s))
        | Some us => for_of us (sendUserToLobby this) (final (teardown this false s))
        end
    end.
Proof.
  rewrite teardown_no_return. simpl.
  unfold teardown, Partitioner_bindGroup, TurkServer_log, Experiments_update, teardown_event.
  unfold_M. simpl.
  match goal with |- context [Experiments_findOne ?g ?s1] =>
    destruct (Experiments_findOne g s1) as [d |] end; [| done].
  by destruct (users d).
Qed.

Lemma getDuration_ended this s d st e :
  Experiments_findOne (groupId this) s = Some d →
  startTime d = Some st → endTime d = Some e →
  getDuration this s = Ok (Some (e - st)) s.
Proof.
  intros Hrec Hst He. unfold getDuration. unfold_M. simpl.
  by rewrite Hrec, Hst, He.
Qed.

(** X8.  Neither [addAssignment] nor [teardown] creates, removes or
    reorders a record of [Experiments], and neither touches the record of
    another Instance. *)
Theorem lifecycle_keeps_records (this : Instance) (asst : Assignment)
    (returnToLobby : bool) (s : State) :
  List.map exp_id (Experiments (final (addAssignment this asst s)))
  = List.map exp_id (Experiments s)
  ∧ List.map exp_id (Experiments (final (teardown this returnToLobby s)))
    = List.map exp_id (Experiments s)
  ∧ ∀ g', groupId this ≠ g' →
      Experiments_findOne g' (final (addAssignment this asst s)) = Experiments_findOne g' s
      ∧ Experiments_findOne g' (final (teardown this returnToLobby s))
        = Experiments_findOne g' s.
Proof.
  destruct (teardown_store this returnToLobby s) as [_ HE].
  assert (Hadd : Experiments (final (addAssignment this asst s)) = Experiments s
                 ∨ Experiments (final (addAssignment this asst s))
                   = Experiments (joined this asst s)).
  { destruct (default false (isEnded this s)) eqn:E.
    - left. by rewrite (addAssignment_closed _ _ _ E).
    - right. by rewrite (addAssignment_open _ _ _ E). }
  split; [| split].
  - destruct Hadd as [-> | ->]; [done |].
    rewrite Experiments_joined. by rewrite !map_update_first.
  - rewrite HE. by rewrite map_update_first.
  - intros g' Hne. unfold Experiments_findOne. split.
    + destruct Hadd as [-> | ->]; [done |].
      rewrite Experiments_joined. by rewrite !find_update_first_other.
    + rewrite HE. by rewrite find_update_first_other.
Qed.

Lemma lifecycle_keeps_records_witness :
  ("g1" ≠ "g2") ∧
  Experiments_findOne "g2" (final (addAssignment instance_g1 asst_a1 server_with_g1_g2))
  = Some experiment_g2
  ∧ Experiments_findOne "g2" (final (teardown instance_g1 true server_with_g1_g2))
    = Some experiment_g2.
Proof.
  split; [discriminate |].
  apply (lifecycle_keeps_records instance_g1 asst_a1 true server_with_g1_g2).
  discriminate.
Defined.

(** X9.  After [teardown], with or without the return to the lobby and
    whether or not the return went through, the Instance is ended and its
    membership frozen: every later [addAssignment] throws and leaves the
    state untouched, over any run of calls. *)
Theorem teardown_freezes_membership (this : Instance) (returnToLobby : bool)
    (assts : list Assignment) (s : State) (d : ExperimentDoc) :
  Experiments_findOne (groupId this) s = Some d →
  isEnded this (final (teardown this returnToLobby s)) = Some true
  ∧ (∀ asst, addAssignment this asst (final (teardown this returnToLobby s))
             = Throw CannotAddToEnded (final (teardown this returnToLobby s)))
  ∧ addAssignments this assts (final (teardown this returnToLobby s))
    = final (teardown this returnToLobby s).
Proof.
  intros Hrec.
  assert (Hended : isEnded this (final (teardown this returnToLobby s)) = Some true).
  { unfold isEnded. rewrite teardown_findOne, Hrec. reflexivity. }
  assert (Hthrow : ∀ asst, addAssignment this asst (final (teardown this returnToLobby s))
                           = Throw CannotAddToEnded (final (teardown this returnToLobby s))).
  { intros asst. apply addAssignment_closed. by rewrite Hended. }
  split; [exact Hended |]. split; [exact Hthrow |].
  induction assts as [| a rest IH]; [done |]. simpl. by rewrite Hthrow.
Qed.

Lemma teardown_freezes_membership_witness :
  Experiments_findOne (groupId instance_g1) server_running_g1 = Some experiment_g1_running ∧
  addAssignments instance_g1 [asst_a2; asst_a1] (final (teardown instance_g1 true server_running_g1))
  = final (teardown instance_g1 true server_running_g1).
Proof.
  split; [reflexivity |].
  apply (teardown_freezes_membership instance_g1 true [asst_a2; asst_a1] server_running_g1
           experiment_g1_running).
  reflexivity.
Defined.

(** X10.  The duration of a finished Instance is measured from its first
    join to its teardown: after the first [addAssignment] on a fresh open
    Instance and a later [teardown], [getDuration()] is the time the
    teardown read minus the time the join read, and reads no clock. *)
Theorem duration_from_first_join_to_teardown (this : Instance) (asst : Assignment)
    (returnToLobby : bool) (s : State) (d : ExperimentDoc) :
  Experiments_findOne (groupId this) s = Some d →
  startTime d = None →
  endTime d = None →
  let s1 := final (addAssignment this asst s) in
  let s2 := final (teardown this returnToLobby s1) in
  getDuration this s2
  = Ok (Some (Date_now s1 (Date_reads s1) - Date_now s (Date_reads s))) s2.
Proof.
  intros Hrec Hst Hend s1 s2.
  assert (Hopen : default false (isEnded this s) = false).
  { rewrite (isEnded_record _ _ _ Hrec), Hend. reflexivity. }
  assert (H1 : Experiments_findOne (groupId this) s1
               = Some (set_startTime (Some (Date_now s (Date_reads s)))
                         (set_users (addToSet (userId asst)) d))).
  { unfold s1. rewrite (addAssignment_open _ _ _ Hopen). simpl.
    rewrite findOne_joined, Hrec. simpl. by rewrite Hst. }
  apply (getDuration_ended this s2
           (set_endTime (Some (Date_now s1 (Date_reads s1)))
              (set_startTime (Some (Date_now s (Date_reads s)))
                 (set_users (addToSet (userId asst)) d)))); [| done | done].
  unfold s2. by rewrite teardown_findOne, H1.
Qed.

Lemma duration_from_first_join_to_teardown_witness :
  Experiments_findOne (groupId instance_g1) server_with_g1 = Some experiment_g1 ∧
  startTime experiment_g1 = None ∧
  endTime experiment_g1 = None ∧
  let s1 := final (addAssignment instance_g1 asst_a1 server_with_g1) in
  let s2 := final (teardown instance_g1 false s1) in
  getDuration instance_g1 s2
  = Ok (Some (Date_now s1 (Date_reads s1)
              - Date_now server_with_g1 (Date_reads server_with_g1))) s2.
Proof.
  split; [reflexivity |]. split; [reflexivity |]. split; [reflexivity |].
  exact (duration_from_first_join_to_teardown instance_g1 asst_a1 false server_with_g1
           experiment_g1 eq_refl eq_refl eq_refl).
Defined.

(** X11.  [teardown(true)] with nobody to send back: on an Instance whose
    record is missing it throws a TypeError after it has logged; on an
    Instance without members ([users] null or empty) it does exactly what
    [teardown(false)] does. *)
Theorem teardown_nobody_to_return (this : Instance) (s : State) :
  match Experiments_findOne (groupId this) s with
  | None => teardown this true s = Throw TypeError (final (teardown this false s))
            ∧ Logs (final (teardown this true s))
              = Logs s ++ [teardown_event this (Date_now s (Date_reads s))]
  | Some d => default [] (users d) = [] → teardown this true s = teardown this false s
  end.
Proof.
  rewrite teardown_return, teardown_findOne.
  destruct (Experiments_findOne (groupId this) s) as [d |]; simpl.
  - intros Hnone.
    destruct (users d) as [us |]; [| done]. simpl in Hnone. by subst us.
  - by split.
Qed.

Lemma teardown_nobody_to_return_witness :
  default [] (users experiment_g1) = [] ∧
  teardown instance_g1 true server_with_g1 = teardown instance_g1 false server_with_g1.
Proof.
  split; [reflexivity |].
  apply (teardown_nobody_to_return instance_g1 server_with_g1). reflexivity.
Defined.

Lemma sendUserToLobby_Grouping this u s :
  Grouping (final (sendUserToLobby this u s)) = delete u (Grouping s).
Proof.
  unfold sendUserToLobby, Partitioner_clearUserGroup, Assignment_leaveInstance,
    Assignments_update, lobby_addAssignment. unfold_M. simpl.
  destruct (Assignment_getCurrentUserAssignment u _) as [a |]; simpl; [| done].
  destruct (batch this _) as [b |]; simpl; done.
Qed.

Lemma for_of_sendUserToLobby_Grouping this us s s' x :
  for_of us (sendUserToLobby this) s = Ok tt s' →
  Grouping s' !! x = if bool_decide (x ∈ us) then None else Grouping s !! x.
Proof.
  revert s. induction us as [| u us IH]; intros s H.
  - injection H as <-. rewrite bool_decide_eq_false_2; [done |]. apply not_elem_of_nil.
  - simpl in H. unfold mbind, M_bind in H.
    pose proof (sendUserToLobby_Grouping this u s) as HG.
    destruct (sendUserToLobby this u s) as [[] s1 | e s1]; [| discriminate H].
    simpl in HG. rewrite (IH _ H), HG.
    destruct (decide (x = u)) as [-> | Hne].
    + rewrite lookup_delete_eq. rewrite (bool_decide_eq_true_2 (u ∈ u :: us)) by (by left).
      by case_bool_decide.
    + rewrite lookup_delete_ne by done.
      case_bool_decide as Hin.
      * rewrite bool_decide_eq_true_2; [done |]. by right.
      * rewrite bool_decide_eq_false_2; [done |].
        intros Hc. apply elem_of_cons in Hc as [-> | Hc]; done.
Qed.

(** X12.  When [teardown(true)] returns normally, every member of the
    Instance has lost the group mapping, and the mapping of everybody else
    is as it was. *)
Theorem teardown_return_clears_groups (this : Instance) (s s' : State) (d : ExperimentDoc) :
  Experiments_findOne (groupId this) s = Some d →
  teardown this true s = Ok tt s' →
  ∀ x, Grouping s' !! x
       = if bool_decide (x ∈ default [] (users d)) then None else Grouping s !! x.
Proof.
  intros Hrec H x. rewrite teardown_return, teardown_findOne, Hrec in H. simpl in H.
  destruct (users d) as [us |]; simpl.
  - by rewrite (for_of_sendUserToLobby_Grouping _ _ _ _ x H).
  - by injection H as <-.
Qed.

Lemma teardown_return_clears_groups_witness :
  Experiments_findOne (groupId instance_g1) server_running_g1 = Some experiment_g1_running ∧
  teardown instance_g1 true server_running_g1
  = Ok tt (final (teardown instance_g1 true server_running_g1)) ∧
  Grouping server_running_g1 !! "u1" = Some "g1" ∧
  Grouping (final (teardown instance_g1 true server_running_g1)) !! "u1" = None.
Proof.
  split; [reflexivity |]. split; [vm_compute; reflexivity |]. split; [reflexivity |].
  etrans.
  - apply (teardown_return_clears_groups instance_g1 server_running_g1
             (final (teardown instance_g1 true server_running_g1))
             experiment_g1_running); [reflexivity | vm_compute; reflexivity].
  - reflexivity.
Defined.

(** ** Treatment resolution *)

Lemma filter_named_ext (ts : list TreatmentDoc) (names1 names2 : list string) :
  (∀ t, t ∈ ts → name t ∈ names1 ↔ name t ∈ names2) →
  List.filter (λ t, bool_decide (name t ∈ names1)) ts
  = List.filter (λ t, bool_decide (name t ∈ names2)) ts.
Proof.
  intros H. apply List.filter_ext_in. intros t Hin.
  apply bool_decide_ext, H. by apply list_elem_of_In.
Qed.

(** X13.  [treatment()] takes the Instance's list of names as a set: two
    Instances whose lists name the same stored Treatments resolve to the
    same parameters, whatever the order of the names, however often a name
    is repeated, and whatever names of no stored Treatment the lists hold
    besides; a name of no stored Treatment is no error. *)
Theorem treatment_depends_on_named_set (this1 this2 : Instance) (s : State)
    (d1 d2 : ExperimentDoc) :
  Experiments_findOne (groupId this1) s = Some d1 →
  Experiments_findOne (groupId this2) s = Some d2 →
  (∀ t, t ∈ Treatments s → name t ∈ treatments d1 ↔ name t ∈ treatments d2) →
  treatment this1 s = treatment this2 s
  ∧ is_Some (treatment this1 s).
Proof.
  intros H1 H2 Hsame. unfold treatment. rewrite H1, H2. simpl.
  unfold Treatments_find_name_in. by rewrite (filter_named_ext _ _ _ Hsame).
Qed.

Lemma treatment_depends_on_named_set_witness :
  Experiments_findOne "g1" server_two_lists = Some experiment_g1 ∧
  Experiments_findOne "g3" server_two_lists = Some experiment_g3 ∧
  treatment instance_g1 server_two_lists = treatment {| groupId := "g3" |} server_two_lists.
Proof.
  split; [reflexivity |]. split; [reflexivity |].
  apply (treatment_depends_on_named_set instance_g1 {| groupId := "g3" |} server_two_lists
           experiment_g1 experiment_g3); [reflexivity | reflexivity |].
  intros t Hin. simpl in Hin.
  apply elem_of_cons in Hin as [-> | Hin];
    [| apply elem_of_cons in Hin as [-> | Hin]; [| by apply not_elem_of_nil in Hin]];
    simpl; split; intros _; set_solver.
Defined.

(** ** The policies *)

Lemma _min_from_spec {A} (f : A → Z) (pre0 mid l : list A) (best : A) :
  Forall (λ y, f best < f y) pre0 →
  Forall (λ y, f best ≤ f y) mid →
  ∃ pre post,
    pre0 ++ best :: mid ++ l = pre ++ _min_from f best l :: post
    ∧ Forall (λ y, f (_min_from f best l) < f y) pre
    ∧ Forall (λ y, f (_min_from f best l) ≤ f y) post.
Proof.
  revert pre0 mid best. induction l as [| y l IH]; intros pre0 mid best Hpre Hmid.
  - exists pre0, mid. simpl. by rewrite app_nil_r.
  - simpl. destruct (Z.ltb_spec (f y) (f best)) as [Hlt | Hge].
    + destruct (IH (pre0 ++ best :: mid) [] y) as (pre & post & E & H1 & H2).
      * apply Forall_app. split.
        -- eapply Forall_impl; [exact Hpre |]. simpl. intros z Hz. lia.
        -- constructor; [lia |].
           eapply Forall_impl; [exact Hmid |]. simpl. intros z Hz. lia.
      * constructor.
      * exists pre, post. split; [| done].
        rewrite <- E. simpl. by rewrite <- !app_assoc.
    + destruct (IH pre0 (mid ++ [y]) best) as (pre & post & E & H1 & H2).
      * done.
      * apply Forall_app. split; [done |]. constructor; [lia | constructor].
      * exists pre, post. split; [| done].
        rewrite <- E. by rewrite <- !app_assoc.
Qed.

(** Underscore's minimum is the first element of least computed value. *)
Lemma _min_spec {A} (f : A → Z) (l : list A) (x : A) :
  _min f l = Some x →
  ∃ pre post, l = pre ++ x :: post
              ∧ Forall (λ y, f x < f y) pre
              ∧ Forall (λ y, f x ≤ f y) post.
Proof.
  destruct l as [| b l]; [done |]. simpl. intros [= <-].
  destruct (_min_from_spec f [] [] l b) as (pre & post & E & H1 & H2); [constructor .. |].
  exists pre, post. by split.
Qed.

Lemma for_of_app {A} (l1 l2 : list A) (body : A → M unit) s :
  for_of (l1 ++ l2) body s
  = match for_of l1 body s with
    | Ok _ s' => for_of l2 body s'
    | Throw e s' => Throw e s'
    end.
Proof.
  revert s. induction l1 as [| x l1 IH]; intros s; [done |].
  simpl. unfold mbind, M_bind.
  destruct (body x s) as [[] s' | e s']; [apply IH | done].
Qed.

Section PoliciesMore.

Variable Lobby_addUser : string → M unit.
Variable Experiment_addUser : option string → string → M unit.
Variable experiment_addUser : string → string → M unit.
Variable Experiment_create : option string → bool → M string.
Variable Experiment_setup : string → string → M unit.

Local Abbreviation assignUserRoundRobin := (assignUserRoundRobin Experiment_addUser).
Local Abbreviation assignUserSequential :=
  (assignUserSequential Experiment_addUser experiment_addUser
     Experiment_create Experiment_setup).
Local Abbreviation handleConnection :=
  (handleConnection Lobby_addUser Experiment_addUser experiment_addUser
     Experiment_create Experiment_setup).

(** X14.  The sequential scan gives the participant to the first stored
    assignable Instance whose [Grouping] count is below [groupVal], by
    [TurkServer.experiment.addUser], and does nothing else: no later
    Instance is looked at and none is created. *)
Theorem assignUserSequential_first_with_room (b : BatchDoc) (u : string)
    (pre post : list ExperimentDoc) (exp : ExperimentDoc) (s : State) :
  Batches_findOne_active s = Some b →
  Experiments_find_assignable s = pre ++ exp :: post →
  Forall (λ exp, has_room b s exp = false) pre →
  has_room b s exp = true →
  assignUserSequential u s = experiment_addUser (exp_id exp) u s.
Proof.
  intros Hb Hcur Hpre Hexp. unfold assignUserSequential.
  unfold mbind at 1, M_bind at 1, gets at 1. rewrite Hb.
  unfold mbind at 1, M_bind at 1, gets at 1. rewrite Hcur.
  unfold mbind at 1, M_bind at 1.
  rewrite (forEach_scan_first_room experiment_addUser _ _ _ _ _ _ Hpre Hexp).
  by destruct (experiment_addUser (exp_id exp) u s) as [[] s' | e s'].
Qed.

(** X15.  Without an active batch the sequential scan cannot read
    [groupVal]: if any assignable Instance is stored, the call throws a
    TypeError at the first of them and changes nothing. *)
Theorem assignUserSequential_no_batch (u : string) (s : State) :
  Batches_findOne_active s = None →
  Experiments_find_assignable s ≠ [] →
  assignUserSequential u s = Throw TypeError s.
Proof.
  intros Hb Hcur. unfold assignUserSequential.
  unfold mbind at 1, M_bind at 1, gets at 1. rewrite Hb.
  unfold mbind at 1, M_bind at 1, gets at 1.
  destruct (Experiments_find_assignable s) as [| exp rest]; [done |].
  reflexivity.
Qed.

(** X16.  Round-robin picks, among the stored Instances the active batch
    lists, the first one of least [Grouping] count, and hands it the
    participant; it creates nothing. *)
Theorem assignUserRoundRobin_first_least (b : BatchDoc) (u : string) (s : State) :
  Batches_findOne_active s = Some b →
  Experiments_find_id_in (experimentIds b) s ≠ [] →
  ∃ pre exp post,
    Experiments_find_id_in (experimentIds b) s = pre ++ exp :: post
    ∧ Forall (λ e, Grouping_count (exp_id exp) s < Grouping_count (exp_id e) s) pre
    ∧ Forall (λ e, Grouping_count (exp_id exp) s ≤ Grouping_count (exp_id e) s) post
    ∧ assignUserRoundRobin u s = Experiment_addUser (Some (exp_id exp)) u s.
Proof.
  intros Hb Hne.
  destruct (_min (λ ex, Grouping_count (exp_id ex) s)
              (Experiments_find_id_in (experimentIds b) s)) as [exp |] eqn:Emin.
  - destruct (_min_spec _ _ _ Emin) as (pre & post & E & H1 & H2).
    exists pre, exp, post. split; [done |]. split; [done |]. split; [done |].
    unfold assignUserRoundRobin. unfold_M. by rewrite Hb, Emin.
  - destruct (Experiments_find_id_in (experimentIds b) s); [done | discriminate Emin].
Qed.

(** X17.  Round-robin without an active batch throws a TypeError and
    changes nothing; with an active batch none of whose Instances is
    stored it passes [undefined] for the Instance to
    [TurkServer.Experiment.addUser]. *)
Theorem assignUserRoundRobin_nothing_to_pick (u : string) (s : State) :
  match Batches_findOne_active s with
  | None => assignUserRoundRobin u s = Throw TypeError s
  | Some b =>
      Experiments_find_id_in (experimentIds b) s = [] →
      assignUserRoundRobin u s = Experiment_addUser None u s
  end.
Proof.
  unfold assignUserRoundRobin. unfold_M.
  destruct (Batches_findOne_active s) as [b |]; [| done].
  intros ->. reflexivity.
Qed.

End PoliciesMore.

Lemma assignUserSequential_first_with_room_witness :
  Batches_findOne_active server_sequential_g2 = Some batch_b1 ∧
  Experiments_find_assignable server_sequential_g2 = [] ++ experiment_g2 :: [] ∧
  has_room batch_b1 server_sequential_g2 experiment_g2 = true ∧
  assignUserSequential ex_Experiment_addUser ex_experiment_addUser ex_Experiment_create
    ex_Experiment_setup "u9" server_sequential_g2
  = ex_experiment_addUser "g2" "u9" server_sequential_g2.
Proof.
  split; [reflexivity |]. split; [reflexivity |]. split; [reflexivity |].
  apply (assignUserSequential_first_with_room ex_Experiment_addUser ex_experiment_addUser
           ex_Experiment_create ex_Experiment_setup batch_b1 "u9" [] [] experiment_g2
           server_sequential_g2); [reflexivity | reflexivity | constructor | reflexivity].
Defined.

Lemma assignUserSequential_no_batch_witness :
  Batches_findOne_active server_with_g1_g2 = None ∧
  Experiments_find_assignable server_with_g1_g2 ≠ [] ∧
  assignUserSequential ex_Experiment_addUser ex_experiment_addUser ex_Experiment_create
    ex_Experiment_setup "u9" server_with_g1_g2
  = Throw TypeError server_with_g1_g2.
Proof.
  split; [reflexivity |]. split; [discriminate |].
  apply (assignUserSequential_no_batch ex_Experiment_addUser ex_experiment_addUser
           ex_Experiment_create ex_Experiment_setup "u9" server_with_g1_g2);
    [reflexivity | discriminate].
Defined.

Lemma assignUserRoundRobin_first_least_witness :
  Batches_findOne_active server_roundrobin = Some batch_b1_roundrobin ∧
  Experiments_find_id_in (experimentIds batch_b1_roundrobin) server_roundrobin
  = [experiment_g1; experiment_g2] ∧
  ∃ pre exp post,
    Experiments_find_id_in (experimentIds batch_b1_roundrobin) server_roundrobin
    = pre ++ exp :: post
    ∧ Forall (λ e, Grouping_count (exp_id exp) server_roundrobin
                   < Grouping_count (exp_id e) server_roundrobin) pre
    ∧ Forall (λ e, Grouping_count (exp_id exp) server_roundrobin
                   ≤ Grouping_count (exp_id e) server_roundrobin) post
    ∧ assignUserRoundRobin ex_Experiment_addUser "u9" server_roundrobin
      = ex_Experiment_addUser (Some (exp_id exp)) "u9" server_roundrobin.
Proof.
  split; [reflexivity |]. split; [reflexivity |].
  apply (assignUserRoundRobin_first_least ex_Experiment_addUser batch_b1_roundrobin "u9"
           server_roundrobin); [reflexivity | discriminate].
Defined.

Lemma assignUserRoundRobin_nothing_to_pick_witness :
  Batches_findOne_active server_sequential = Some batch_b1 ∧
  Experiments_find_id_in (experimentIds batch_b1) server_sequential = [] ∧
  assignUserRoundRobin ex_Experiment_addUser "u9" server_sequential
  = ex_Experiment_addUser None "u9" server_sequential.
Proof.
  split; [reflexivity |]. split; [reflexivity |].
  apply (assignUserRoundRobin_nothing_to_pick ex_Experiment_addUser "u9" server_sequential).
  reflexivity.
Defined.

(** ** handleConnection: what the two writes leave alone *)

Lemma set_status_same v d : status d = Some v → set_status v d = d.
Proof. destruct d. simpl. by intros ->. Qed.

Lemma returned_others_fixed doc l :
  others_returned doc l → returned_others doc l = l.
Proof.
  unfold others_returned, returned_others.
  induction 1 as [| d l Hd _ IH]; [done |]. simpl. rewrite IH.
  destruct (other_worker doc d); [| done]. by rewrite set_status_same by auto.
Qed.

Lemma existsb_update_first {A} (p : A → bool) (f : A → A) (l : list A) :
  (∀ x, p (f x) = p x) → existsb p (update_first p f l) = existsb p l.
Proof.
  intros H. induction l as [| x l IH]; [done |]. simpl.
  destruct (p x) eqn:E; simpl; [by rewrite H, E | by rewrite E, IH].
Qed.

Lemma update_first_idem {A} (p : A → bool) (f : A → A) (l : list A) :
  (∀ x, p (f x) = p x) → (∀ x, f (f x) = f x) →
  update_first p f (update_first p f l) = update_first p f l.
Proof.
  intros Hp Hf. induction l as [| x l IH]; [done |]. simpl.
  destruct (p x) eqn:E; simpl; [by rewrite Hp, E, Hf | by rewrite E, IH].
Qed.

Lemma update_first_snoc_no_match {A} (p : A → bool) (f : A → A) (l : list A) (x : A) :
  existsb p l = false → p x = true → update_first p f (l ++ [x]) = l ++ [f x].
Proof.
  intros Hl Hx. induction l as [| y l IH]; simpl in *; [by rewrite Hx |].
  apply orb_false_iff in Hl as [Hy Hl]. by rewrite Hy, IH.
Qed.

(** The list the two writes produce is a fixed point of the two writes. *)
Lemma upserted_fixed doc id id' l :
  upserted doc id' (upserted doc id (returned_others doc l))
  = upserted doc id (returned_others doc l).
Proof.
  generalize (returned_others doc l). clear l. intros l. unfold upserted.
  destruct (existsb (this_worker doc) l) eqn:E.
  - rewrite existsb_update_first by reflexivity. rewrite E.
    apply update_first_idem; [reflexivity | by intros []].
  - rewrite existsb_app. simpl.
    assert (Hnew : ∀ i, this_worker doc
              {| asst_id := i; hitId := conn_hitId doc; assignmentId := conn_assignmentId doc;
                 workerId := conn_workerId doc; status := Some ASSIGNED; instances := [] |}
              = true).
    { intros i. unfold this_worker, same_assignment. simpl. by rewrite !String.eqb_refl. }
    rewrite Hnew, orb_true_r.
    by rewrite update_first_snoc_no_match.
Qed.

Lemma upserted_has_assigned doc id l :
  existsb (λ d, this_worker doc d && bool_decide (status d = Some ASSIGNED))
    (upserted doc id l) = true.
Proof.
  unfold upserted. destruct (existsb (this_worker doc) l) eqn:E.
  - induction l as [| d l IH]; [done |]. simpl in *.
    destruct (this_worker doc d) eqn:Ed; simpl.
    + replace (this_worker doc (set_status ASSIGNED d)) with (this_worker doc d)
        by reflexivity.
      by rewrite Ed.
    + rewrite Ed. simpl. by apply IH.
  - rewrite existsb_app. simpl.
    unfold this_worker, same_assignment. simpl. rewrite !String.eqb_refl. simpl.
    apply orb_true_r.
Qed.

Lemma upserted_keeps_other_assignments doc id l :
  List.filter (λ d, negb (same_assignment doc d)) (upserted doc id (returned_others doc l))
  = List.filter (λ d, negb (same_assignment doc d)) l.
Proof.
  assert (Hret : List.filter (λ d, negb (same_assignment doc d)) (returned_others doc l)
                 = List.filter (λ d, negb (same_assignment doc d)) l).
  { unfold returned_others. induction l as [| d l IH]; [done |]. simpl.
    destruct (other_worker doc d) eqn:E.
    - replace (same_assignment doc (set_status RETURNED d)) with (same_assignment doc d)
        by reflexivity.
      unfold other_worker in E. apply andb_true_iff in E as [E _]. by rewrite E.
    - by rewrite IH. }
  rewrite <- Hret. generalize (returned_others doc l). clear. intros l.
  unfold upserted. destruct (existsb (this_worker doc) l).
  - induction l as [| d l IH]; [done |]. simpl.
    destruct (this_worker doc d) eqn:E; simpl.
    + replace (same_assignment doc (set_status ASSIGNED d)) with (same_assignment doc d)
        by reflexivity.
      unfold this_worker in E. apply andb_true_iff in E as [E _]. by rewrite E.
    + by rewrite IH.
  - rewrite List.filter_app. simpl.
    unfold same_assignment at 2. simpl. rewrite !String.eqb_refl. simpl.
    by rewrite app_nil_r.
Qed.

Lemma upserted_keeps_ids doc id l :
  List.map asst_id l `prefix_of` List.map asst_id (upserted doc id (returned_others doc l)).
Proof.
  assert (Hret : List.map asst_id (returned_others doc l) = List.map asst_id l).
  { unfold returned_others. rewrite List.map_map. apply List.map_ext.
    intros d. by destruct (other_worker doc d). }
  rewrite <- Hret. generalize (returned_others doc l). clear. intros l.
  unfold upserted. destruct (existsb (this_worker doc) l).
  - by rewrite map_update_first.
  - rewrite List.map_app. by apply prefix_app_r.
Qed.

Section HandleConnectionMore.

Variable Lobby_addUser : string → M unit.
Variable Experiment_addUser : option string → string → M unit.
Variable experiment_addUser : string → string → M unit.
Variable Experiment_create : option string → bool → M string.
Variable Experiment_setup : string → string → M unit.

Local Abbreviation handleConnection :=
  (handleConnection Lobby_addUser Experiment_addUser experiment_addUser
     Experiment_create Experiment_setup).

(** X18.  A participant in no group who connects while no batch is
    active gets the 403 "No active batch configured on server", but only
    after the two Assignment writes: the error leaves the connecting
    worker's record in the store, marked ASSIGNED. *)
Theorem handleConnection_no_batch (doc : Connection) (s : State) :
  truthy_string (Groups_getUserGroup (conn_userId doc) s) = false →
  Batches_findOne_active s = None →
  handleConnection doc s = Throw NoActiveBatch (assignment_recorded doc s)
  ∧ existsb (λ d, this_worker doc d && bool_decide (status d = Some ASSIGNED))
      (Assignments (final (handleConnection doc s))) = true.
Proof.
  intros Hg Hb.
  assert (H : handleConnection doc s = Throw NoActiveBatch (assignment_recorded doc s)).
  { rewrite (handleConnection_after_record Lobby_addUser Experiment_addUser
               experiment_addUser Experiment_create Experiment_setup).
    unfold_M. destruct (recorded_frame doc s) as (HG & _ & _ & _ & HB).
    unfold Groups_getUserGroup, Batches_findOne_active in *.
    by rewrite HG, Hg, HB, Hb. }
  split; [exact H |]. rewrite H. simpl.
  rewrite Assignments_recorded. apply upserted_has_assigned.
Qed.

(** X19.  A participant whom [addAssignment] has put in an Instance and
    who connects again is neither sent to the lobby nor assigned anew:
    [handleConnection] returns after the two Assignment writes, whatever
    the lobby and the policies would do. *)
Theorem reconnect_after_addAssignment (this : Instance) (asst : Assignment)
    (doc : Connection) (s : State) :
  default false (isEnded this s) = false →
  groupId this ≠ "" →
  conn_userId doc = userId asst →
  handleConnection doc (final (addAssignment this asst s))
  = Ok tt (assignment_recorded doc (final (addAssignment this asst s))).
Proof.
  intros Hopen Hne Hu. rewrite (addAssignment_open _ _ _ Hopen). simpl.
  rewrite (handleConnection_after_record Lobby_addUser Experiment_addUser
             experiment_addUser Experiment_create Experiment_setup).
  unfold_M. destruct (recorded_frame doc (joined this asst s)) as (HG & _).
  unfold Groups_getUserGroup. rewrite HG, Hu.
  assert (Hmap : Grouping (joined this asst s) !! userId asst = Some (groupId this)).
  { unfold joined, Assignment_joinInstance, Assignments_update. unfold_M. simpl.
    apply lookup_insert_eq. }
  rewrite Hmap. simpl. by destruct (String.eqb_spec (groupId this) "").
Qed.

Hypothesis Lobby_addUser_keeps : ∀ u, keeps_Assignments (Lobby_addUser u).
Hypothesis Experiment_addUser_keeps : ∀ g u, keeps_Assignments (Experiment_addUser g u).
Hypothesis experiment_addUser_keeps : ∀ g u, keeps_Assignments (experiment_addUser g u).
Hypothesis Experiment_create_keeps : ∀ t a, keeps_Assignments (Experiment_create t a).
Hypothesis Experiment_setup_keeps : ∀ g t, keeps_Assignments (Experiment_setup g t).

Local Abbreviation Assignments_after doc s :=
  (handleConnection_Assignments Lobby_addUser Experiment_addUser experiment_addUser
     Experiment_create Experiment_setup Lobby_addUser_keeps Experiment_addUser_keeps
     experiment_addUser_keeps Experiment_create_keeps Experiment_setup_keeps doc s).

(** X20.  The lobby and experiment API leaving [Assignments] alone,
    [handleConnection(doc)] never removes or reorders a record, adds at
    most one, and leaves every record of another hitId or assignmentId
    exactly as it was. *)
Theorem handleConnection_keeps_other_assignments (doc : Connection) (s : State) :
  List.filter (λ d, negb (same_assignment doc d)) (Assignments (final (handleConnection doc s)))
  = List.filter (λ d, negb (same_assignment doc d)) (Assignments s)
  ∧ List.map asst_id (Assignments s)
    `prefix_of` List.map asst_id (Assignments (final (handleConnection doc s)))
  ∧ (length (Assignments (final (handleConnection doc s))) ≤ S (length (Assignments s)))%nat.
Proof.
  rewrite (Assignments_after doc s).
  split; [apply upserted_keeps_other_assignments |].
  split; [apply upserted_keeps_ids |].
  unfold upserted. destruct (existsb _ _).
  - assert (Hlen : ∀ l : list AssignmentDoc,
              length (update_first (this_worker doc) (set_status ASSIGNED) l) = length l).
    { intros l. rewrite <- (length_map asst_id), map_update_first by reflexivity.
      apply length_map. }
    rewrite Hlen. unfold returned_others. rewrite length_map. lia.
  - rewrite length_app. unfold returned_others. rewrite length_map. simpl. lia.
Qed.

(** X21.  On the [Assignments] collection [handleConnection] is
    idempotent: the same connection handled a second time, right after the
    first, leaves the records as the first left them. *)
Theorem handleConnection_twice (doc : Connection) (s : State) :
  Assignments (final (handleConnection doc (final (handleConnection doc s))))
  = Assignments (final (handleConnection doc s)).
Proof.
  rewrite (Assignments_after doc (final (handleConnection doc s))).
  rewrite (Assignments_after doc s).
  rewrite (returned_others_fixed doc (upserted doc _ _))
    by apply upserted_others_returned, returned_others_sound.
  apply upserted_fixed.
Qed.

End HandleConnectionMore.

Lemma handleConnection_no_batch_witness :
  truthy_string (Groups_getUserGroup (conn_userId connection_w2) server_no_batch) = false ∧
  Batches_findOne_active server_no_batch = None ∧
  handleConnection ex_Lobby_addUser ex_Experiment_addUser ex_experiment_addUser
    ex_Experiment_create ex_Experiment_setup connection_w2 server_no_batch
  = Throw NoActiveBatch (assignment_recorded connection_w2 server_no_batch).
Proof.
  split; [reflexivity |]. split; [reflexivity |].
  apply (handleConnection_no_batch ex_Lobby_addUser ex_Experiment_addUser
           ex_experiment_addUser ex_Experiment_create ex_Experiment_setup
           connection_w2 server_no_batch); reflexivity.
Defined.

Lemma reconnect_after_addAssignment_witness :
  default false (isEnded instance_g1 server_with_g1) = false ∧
  conn_userId connection_w2 = userId asst_a2 ∧
  handleConnection ex_Lobby_addUser ex_Experiment_addUser ex_experiment_addUser
    ex_Experiment_create ex_Experiment_setup connection_w2
    (final (addAssignment instance_g1 asst_a2 server_with_g1))
  = Ok tt (assignment_recorded connection_w2
             (final (addAssignment instance_g1 asst_a2 server_with_g1))).
Proof.
  split; [reflexivity |]. split; [reflexivity |].
  apply (reconnect_after_addAssignment ex_Lobby_addUser ex_Experiment_addUser
           ex_experiment_addUser ex_Experiment_create ex_Experiment_setup
           instance_g1 asst_a2 connection_w2 server_with_g1);
    [reflexivity | discriminate | reflexivity].
Defined.

Lemma handleConnection_keeps_other_assignments_witness :
  (length (Assignments
             (final (handleConnection ex_Lobby_addUser ex_Experiment_addUser
                       ex_experiment_addUser ex_Experiment_create ex_Experiment_setup
                       connection_w2 server_sequential)))
   ≤ S (length (Assignments server_sequential)))%nat.
Proof.
  apply (handleConnection_keeps_other_assignments ex_Lobby_addUser ex_Experiment_addUser
           ex_experiment_addUser ex_Experiment_create ex_Experiment_setup
           (λ u s, eq_refl) ex_Experiment_addUser_keeps (λ g u s, eq_refl)
           (λ t a s, eq_refl) (λ g t s, eq_refl)
           connection_w2 server_sequential).
Defined.

Lemma handleConnection_twice_witness :
  Assignments
    (final (handleConnection ex_Lobby_addUser ex_Experiment_addUser ex_experiment_addUser
              ex_Experiment_create ex_Experiment_setup connection_w2
              (final (handleConnection ex_Lobby_addUser ex_Experiment_addUser
                        ex_experiment_addUser ex_Experiment_create ex_Experiment_setup
                        connection_w2 server_sequential))))
  = Assignments
      (final (handleConnection ex_Lobby_addUser ex_Experiment_addUser ex_experiment_addUser
                ex_Experiment_create ex_Experiment_setup connection_w2 server_sequential)).
Proof.
  apply (handleConnection_twice ex_Lobby_addUser ex_Experiment_addUser
           ex_experiment_addUser ex_Experiment_create ex_Experiment_setup
           (λ u s, eq_refl) ex_Experiment_addUser_keeps (λ g u s, eq_refl)
           (λ t a s, eq_refl) (λ g t s, eq_refl)
           connection_w2 server_sequential).
Defined.

(** ** Disconnect callbacks and initialization handlers *)

Lemma sessionLogout_callbacks_grouped cbs u g s :
  u ≠ "" → g ≠ "" → Grouping s !! u = Some g →
  sessionLogout_callbacks cbs (Some u) s = for_of cbs (λ cb, cb u (Some g)) s.
Proof.
  intros Hu Hg Hmap. unfold sessionLogout_callbacks, Partitioner_bindGroup. simpl.
  destruct (String.eqb_spec u "") as [-> | _]; [done |]. simpl.
  unfold_M. rewrite Hmap. simpl.
  by destruct (String.eqb_spec g "") as [-> | _].
Qed.

Lemma sessionLogout_callbacks_ungrouped cbs u s :
  Grouping s !! u = None → sessionLogout_callbacks cbs (Some u) s = Ok tt s.
Proof.
  intros Hmap. unfold sessionLogout_callbacks. simpl.
  destruct (String.eqb u ""); simpl; [done |].
  unfold_M. by rewrite Hmap.
Qed.

(** X22.  Disconnect callbacks run in the order they were registered, in
    the group of the user who left, and a callback that throws keeps the
    later ones from running: logging out with one more callback registered
    is logging out with the earlier ones and then, if they all returned,
    calling the new one. *)
Theorem sessionLogout_callbacks_in_order
    (func : string → option string → M unit)
    (disconnectCallbacks : list (string → option string → M unit))
    (u g : string) (s : State) :
  u ≠ "" → g ≠ "" → Grouping s !! u = Some g →
  sessionLogout_callbacks (onDisconnect func disconnectCallbacks) (Some u) s
  = match sessionLogout_callbacks disconnectCallbacks (Some u) s with
    | Ok _ s' => func u (Some g) s'
    | Throw e s' => Throw e s'
    end.
Proof.
  intros Hu Hg Hmap. rewrite !(sessionLogout_callbacks_grouped _ u g) by done.
  unfold onDisconnect. rewrite for_of_app.
  destruct (for_of disconnectCallbacks _ s) as [[] s' | e s']; [| done].
  simpl. unfold mbind, M_bind. by destruct (func u (Some g) s') as [[] s'' | e s''].
Qed.

Lemma sessionLogout_callbacks_in_order_witness :
  Grouping server_running_g1 !! "u1" = Some "g1" ∧
  sessionLogout_callbacks (onDisconnect ex_callback_2 [ex_callback_1]) (Some "u1")
    server_running_g1
  = match sessionLogout_callbacks [ex_callback_1] (Some "u1") server_running_g1 with
    | Ok _ s' => ex_callback_2 "u1" (Some "g1") s'
    | Throw e s' => Throw e s'
    end.
Proof.
  split; [reflexivity |].
  apply (sessionLogout_callbacks_in_order ex_callback_2 [ex_callback_1] "u1" "g1"
           server_running_g1); [discriminate | discriminate | reflexivity].
Defined.

(** X23.  Joining an Instance switches the disconnect callbacks on: after
    a successful [addAssignment] the user's logout runs the callbacks, in
    the group of that Instance. *)
Theorem logout_after_addAssignment
    (disconnectCallbacks : list (string → option string → M unit))
    (this : Instance) (asst : Assignment) (s : State) :
  default false (isEnded this s) = false →
  userId asst ≠ "" →
  groupId this ≠ "" →
  sessionLogout_callbacks disconnectCallbacks (Some (userId asst))
    (final (addAssignment this asst s))
  = for_of disconnectCallbacks (λ cb, cb (userId asst) (Some (groupId this)))
      (final (addAssignment this asst s)).
Proof.
  intros Hopen Hu Hg. apply sessionLogout_callbacks_grouped; [done | done |].
  rewrite (addAssignment_open _ _ _ Hopen). simpl.
  unfold joined, Assignment_joinInstance, Assignments_update. unfold_M. simpl.
  apply lookup_insert_eq.
Qed.

Lemma logout_after_addAssignment_witness :
  default false (isEnded instance_g1 server_with_g1) = false ∧
  sessionLogout_callbacks [ex_callback_1; ex_callback_2] (Some (userId asst_a1))
    (final (addAssignment instance_g1 asst_a1 server_with_g1))
  = for_of [ex_callback_1; ex_callback_2] (λ cb, cb (userId asst_a1) (Some (groupId instance_g1)))
      (final (addAssignment instance_g1 asst_a1 server_with_g1)).
Proof.
  split; [reflexivity |].
  apply (logout_after_addAssignment [ex_callback_1; ex_callback_2] instance_g1 asst_a1
           server_with_g1); [reflexivity | discriminate | discriminate].
Defined.

Section SessionLogoutFacts.

Variable Lobby_removeUser : option string → M unit.

Hypothesis Lobby_removeUser_keeps_groups :
  ∀ u s, Grouping (final (Lobby_removeUser u s)) = Grouping s.

(** X24.  Leaving switches them off.  [TurkServer.Lobby.removeUser]
    leaving the group mapping alone: after a [teardown(true)] that returned
    normally, the ["sessionLogout"] event of a member of the Instance is
    the removal from the lobby and nothing more, no callback runs; so is
    the event of a logout without a userId, in any state. *)
Theorem logout_after_teardown
    (disconnectCallbacks : list (string → option string → M unit))
    (this : Instance) (s s' : State) (d : ExperimentDoc) (u : string) :
  Experiments_findOne (groupId this) s = Some d →
  teardown this true s = Ok tt s' →
  u ∈ default [] (users d) →
  sessionLogout Lobby_removeUser disconnectCallbacks (Some u) s'
  = Lobby_removeUser (Some u) s'
  ∧ sessionLogout_callbacks disconnectCallbacks (Some u) s' = Ok tt s'
  ∧ ∀ s0, sessionLogout Lobby_removeUser disconnectCallbacks None s0
          = Lobby_removeUser None s0.
Proof.
  intros Hrec H Hin.
  assert (Hgone : Grouping s' !! u = None).
  { rewrite teardown_return, teardown_findOne, Hrec in H. simpl in H.
    destruct (users d) as [us |]; simpl in Hin; [| by apply not_elem_of_nil in Hin].
    rewrite (for_of_sendUserToLobby_Grouping _ _ _ _ u H).
    by rewrite bool_decide_eq_true_2. }
  split; [| split].
  - unfold sessionLogout, mbind, M_bind.
    pose proof (Lobby_removeUser_keeps_groups (Some u) s') as HG.
    destruct (Lobby_removeUser (Some u) s') as [[] s1 | e s1]; [| done].
    simpl in HG. apply sessionLogout_callbacks_ungrouped. by rewrite HG.
  - by apply sessionLogout_callbacks_ungrouped.
  - intros s0. unfold sessionLogout, mbind, M_bind.
    by destruct (Lobby_removeUser None s0) as [[] s1 | e s1].
Qed.

End SessionLogoutFacts.

Lemma ex_Lobby_removeUser_keeps_groups u s :
  Grouping (final (ex_Lobby_removeUser u s)) = Grouping s.
Proof. by destruct u. Qed.

Lemma logout_after_teardown_witness :
  Experiments_findOne (groupId instance_g1) server_running_g1 = Some experiment_g1_running ∧
  LobbyStatus (final (teardown instance_g1 true server_running_g1)) !! "u1" = Some "b1" ∧
  sessionLogout ex_Lobby_removeUser [ex_callback_1; ex_callback_2] (Some "u1")
    (final (teardown instance_g1 true server_running_g1))
  = ex_Lobby_removeUser (Some "u1") (final (teardown instance_g1 true server_running_g1)).
Proof.
  split; [reflexivity |]. split; [vm_compute; reflexivity |].
  assert (H : teardown instance_g1 true server_running_g1
              = Ok tt (final (teardown instance_g1 true server_running_g1)))
    by (vm_compute; reflexivity).
  assert (Hin : "u1" ∈ default [] (users experiment_g1_running)) by (by left).
  exact (proj1 (logout_after_teardown ex_Lobby_removeUser ex_Lobby_removeUser_keeps_groups
                  [ex_callback_1; ex_callback_2] instance_g1
                  server_running_g1 (final (teardown instance_g1 true server_running_g1))
                  experiment_g1_running "u1" eq_refl H Hin)).
Defined.

Section SetupFacts.

Variable log_initialized : option (gmap string string) → option string → M unit.

(** X25.  [setup()] resolves the treatment in the state it is called in
    and logs the event before any handler runs; the handlers then run in
    the order they were registered, each with the Instance as context and
    in its group, and a handler that throws keeps the later ones from
    running. *)
Theorem setup_runs_queue_in_order
    (handler : Instance → option string → M unit)
    (init_queue : list (Instance → option string → M unit))
    (this : Instance) (s : State) :
  setup log_initialized [] this s
  = match log_initialized (treatment this s) (Some (groupId this)) s with
    | Ok _ s' => Ok tt s'
    | Throw e s' => Throw e s'
    end
  ∧ setup log_initialized (initialize handler init_queue) this s
    = match setup log_initialized init_queue this s with
      | Ok _ s' => handler this (Some (groupId this)) s'
      | Throw e s' => Throw e s'
      end.
Proof.
  unfold setup, bindOperation, Partitioner_bindGroup, initialize. unfold_M. split.
  - by destruct (log_initialized _ _ s).
  - destruct (log_initialized _ _ s) as [[] s1 | e s1]; [| done].
    rewrite for_of_app.
    destruct (for_of init_queue _ s1) as [[] s' | e s']; [| done].
    simpl. unfold mbind, M_bind.
    by destruct (handler this (Some (groupId this)) s') as [[] s'' | e s''].
Qed.

End SetupFacts.
